(** * validate_attestation.py: the structural validator of attestation documents

    A shallow embedding of [validate_attestation] (zkpf/validate_attestation.py)
    and the properties of its validation contract.

    The validator receives what [json.load] produced: a tree of Python [dict],
    [list], [str], [int], [float], [bool] and [None].  It appends human readable
    messages to one list [errors] and returns it.  Nothing catches what the
    body raises: the [TypeError] of an operation applied to a value of the
    wrong type, and the [ValueError] or [RecursionError] of [str] when the
    message of line 87 is built from a value that has no text (only the
    [ValueError] of [bytes.fromhex] is caught in place). *)

From Stdlib Require Import ZArith Ascii String List Bool Lia.
From stdpp Require Import base option list gmap strings fin_maps.

Local Open Scope string_scope.
Local Open Scope Z_scope.
Local Open Scope list_scope.

(** ** Data model: the value tree produced by [json.load] *)

(** Python [str] is kept as a Rocq [string]; its characters stand for code
    points below 256.  [JFloat] carries the bit pattern of the double: the
    validator never looks inside a float.  A [dict] is only ever looked up by
    key, so it is a finite map. *)
Unset Elimination Schemes.
Inductive json : Type :=
| JNull
| JBool (b : bool)
| JInt (z : Z)
| JFloat (bits : Z)
| JStr (s : string)
| JList (l : list json)
| JObj (m : gmap string json).
Set Elimination Schemes.

(** The classes named in [required_fields]. *)
Inductive pytype : Type := TInt | TStr | TDict | TList.

(** [expected_type.__name__] *)
Definition pytype_name (t : pytype) : string :=
  match t with
  | TInt => "int" | TStr => "str" | TDict => "dict" | TList => "list"
  end.

(** [type(value).__name__] *)
Definition type_name (v : json) : string :=
  match v with
  | JNull => "NoneType"
  | JBool _ => "bool"
  | JInt _ => "int"
  | JFloat _ => "float"
  | JStr _ => "str"
  | JList _ => "list"
  | JObj _ => "dict"
  end.

(** [isinstance(value, int)]: [bool] is a subclass of [int], the value being
    [1] for [True] and [0] for [False]. *)
Definition int_value (v : json) : option Z :=
  match v with
  | JInt z => Some z
  | JBool b => Some (if b then 1 else 0)
  | _ => None
  end.

Definition isinstance (v : json) (t : pytype) : bool :=
  match t, v with
  | TInt, (JInt _ | JBool _) => true
  | TStr, JStr _ => true
  | TDict, JObj _ => true
  | TList, JList _ => true
  | _, _ => false
  end.

(** ** Exceptions *)

Inductive exn : Type := TypeError | KeyError | ValueError | RecursionError.

Inductive result (A : Type) : Type :=
| Ok (a : A)
| Raise (e : exn).
Arguments Ok {A} a.
Arguments Raise {A} e.

Definition bind {A B : Type} (r : result A) (k : A -> result B) : result B :=
  match r with
  | Ok a => k a
  | Raise e => Raise e
  end.

Notation "x <- r ;; k" := (bind r (fun x => k))
  (at level 100, r at next level, right associativity, only parsing).

(** ** Python primitives used by the validator *)

(** [needle in haystack] on two [str]: substring test. *)
Fixpoint str_contains (needle haystack : string) : bool :=
  String.prefix needle haystack ||
  match haystack with
  | EmptyString => false
  | String _ rest => str_contains needle rest
  end.

(** [key == element] for a [str] key: only an equal [str] compares equal. *)
Definition eq_str (key : string) (v : json) : bool :=
  match v with
  | JStr s => bool_decide (key = s)
  | _ => false
  end.

(** [key in container] with a [str] key. *)
Definition py_in (key : string) (container : json) : result bool :=
  match container with
  | JObj m => Ok (match m !! key with Some _ => true | None => false end)
  | JList l => Ok (existsb (eq_str key) l)
  | JStr s => Ok (str_contains key s)
  | JNull | JBool _ | JInt _ | JFloat _ => Raise TypeError
  end.

(** [container[key]] with a [str] key, evaluated after [key in container]
    held: a [list] or a [str] cannot be indexed by a [str]. *)
Definition py_getitem (container : json) (key : string) : result json :=
  match container with
  | JObj m => match m !! key with
              | Some v => Ok v
              | None => Raise KeyError
              end
  | _ => Raise TypeError
  end.

(** [len(v)] *)
Definition py_len (v : json) : result nat :=
  match v with
  | JList l => Ok (length l)
  | JStr s => Ok (String.length s)
  | JObj m => Ok (size m)
  | JNull | JBool _ | JInt _ | JFloat _ => Raise TypeError
  end.

(** [s.removeprefix(p)]: [s] without its leading [p] when it starts with
    [p], and [s] itself otherwise. *)
Fixpoint strip_prefix (p s : string) : option string :=
  match p, s with
  | EmptyString, _ => Some s
  | String a p', String b s' => if Ascii.eqb a b then strip_prefix p' s' else None
  | String _ _, EmptyString => None
  end.

Definition removeprefix (p s : string) : string :=
  match strip_prefix p s with
  | Some rest => rest
  | None => s
  end.

(** [Py_ISSPACE]: space, and the control characters 9 to 13. *)
Definition isspace (c : ascii) : bool :=
  let n := nat_of_ascii c in
  (Nat.eqb n 32 || (Nat.leb 9 n && Nat.leb n 13))%bool.

(** [_PyLong_DigitValue], cut at 16: the value of a hexadecimal digit. *)
Definition hex_digit (c : ascii) : option Z :=
  let n := Z.of_nat (nat_of_ascii c) in
  if (48 <=? n) && (n <=? 57) then Some (n - 48)
  else if (97 <=? n) && (n <=? 102) then Some (n - 87)
  else if (65 <=? n) && (n <=? 70) then Some (n - 55)
  else None.

(** [bytes.fromhex(s)]: pairs of hexadecimal digits, ASCII whitespace being
    skipped before each pair; [None] stands for the [ValueError] raised on
    anything else (a character that is no digit, a digit left alone, a
    character outside ASCII). *)
Fixpoint fromhex (s : string) : option (list Z) :=
  match s with
  | EmptyString => Some []
  | String c rest =>
      if isspace c then fromhex rest
      else
        match hex_digit c, rest with
        | Some top, String c' rest' =>
            match hex_digit c' with
            | Some bot =>
                match fromhex rest' with
                | Some bs => Some ((16 * top + bot) :: bs)
                | None => None
                end
            | None => None
            end
        | _, _ => None
        end
  end.

(** [bytes.fromhex(s)] does not raise. *)
Definition decodes (s : string) : bool :=
  match fromhex s with
  | Some _ => true
  | None => false
  end.

(** ** Error messages *)

(** One constructor per message template of the source, holding the values
    its f-string interpolates. *)
Inductive error : Type :=
| MissingTopLevel
    (* "Missing top-level 'attestation' field" *)
| MissingRequired (field description : string)
    (* "Missing required field: {field} ({description})" *)
| WrongType (field expected got : string)
    (* "Field '{field}' has wrong type: expected {expected}, got {got}" *)
| MissingMember (parent member : string)
    (* "{parent} missing '{member}' field" *)
| MemberNot32 (parent member : string) (got : nat)
    (* "{parent}.{member} must be array of 32 bytes, got {got} bytes" *)
| MessageHashNot32 (got : option nat)
    (* "message_hash must be array of 32 bytes, got {got}", None: 'non-array' *)
| MessageHashByte (i : nat) (byte : json)
    (* "message_hash[{i}] must be byte (0-255), got {byte}" *)
| AccountHexLength (got : nat)
    (* "account_id_hash hex string must be 64 chars (32 bytes), got {got}" *)
| AccountNotHex (aih : string)
    (* "account_id_hash is not valid hex: {aih}" *)
| AccountArrayLength (got : nat)
    (* "account_id_hash array must be 32 bytes, got {got}" *)
| AccountBadType (got : string)
    (* "account_id_hash must be hex string or byte array, got {got}" *)
| BalanceNegative
    (* "balance_raw must be non-negative" *)
| CurrencyNotU32
    (* "currency_code_int must fit in u32" *)
| CustodianNotU32
    (* "custodian_id must fit in u32" *).

(** ** The validator *)

(** [required_fields], in declaration order (the order [items()] yields). *)
Definition required_fields : list (string * (pytype * string)) :=
  [ ("balance_raw", (TInt, "u64"));
    ("currency_code_int", (TInt, "u32"));
    ("custodian_id", (TInt, "u32"));
    ("attestation_id", (TInt, "u64"));
    ("issued_at", (TInt, "u64"));
    ("valid_until", (TInt, "u64"));
    ("account_id_hash", (TStr, "32-byte hex or array"));
    ("custodian_pubkey", (TDict, "object with x, y"));
    ("signature", (TDict, "object with r, s"));
    ("message_hash", (TList, "32-byte array")) ].

(** The body of the loop over [required_fields] (lines 43-51). *)
Definition check_required_field (att : json) (errors : list error)
    (entry : string * (pytype * string)) : result (list error) :=
  let '(field, (expected_type, description)) := entry in
  present <- py_in field att ;;
  if negb present then
    Ok (errors ++ [MissingRequired field description])
  else
    value <- py_getitem att field ;;
    if negb (isinstance value expected_type) then
      Ok (errors ++ [WrongType field (pytype_name expected_type) (type_name value)])
    else Ok errors.

(** A [for] loop whose body threads [errors] and may raise. *)
Fixpoint for_each {A : Type} (body : list error -> A -> result (list error))
    (errors : list error) (items : list A) : result (list error) :=
  match items with
  | [] => Ok errors
  | item :: rest => errors' <- body errors item ;; for_each body errors' rest
  end.

(** Lines 42-51: the loop over [required_fields.items()]. *)
Definition required_pass (att : json) (errors : list error) : result (list error) :=
  for_each (check_required_field att) errors required_fields.

(** One member of [custodian_pubkey] or [signature] (lines 56-59, and the
    same code for [y], [r], [s]); [obj] is the parent, known to be a dict. *)
Definition check_member (parent member : string) (obj : gmap string json)
    (errors : list error) : result (list error) :=
  match obj !! member with
  | None => Ok (errors ++ [MissingMember parent member])
  | Some v =>
      bad <- (if negb (isinstance v TList) then Ok true
              else n <- py_len v ;; Ok (negb (Nat.eqb n 32))) ;;
      if (bad : bool) then
        (* len(obj.get(member, [])) in the message *)
        got <- py_len (default (JList []) (obj !! member)) ;;
        Ok (errors ++ [MemberNot32 parent member got])
      else Ok errors
  end.

(** Lines 54-64 and 67-77: [parent in att and isinstance(att[parent], dict)]
    guards the two member checks. *)
Definition check_pair (parent first second : string) (att : json)
    (errors : list error) : result (list error) :=
  present <- py_in parent att ;;
  if (present : bool) then
    v <- py_getitem att parent ;;
    match v with
    | JObj obj =>
        errors' <- check_member parent first obj errors ;;
        check_member parent second obj errors'
    | _ => Ok errors
    end
  else Ok errors.

(** [not isinstance(byte, int) or not (0 <= byte <= 255)] *)
Definition not_a_byte (byte : json) : bool :=
  match int_value byte with
  | None => true
  | Some z => negb ((0 <=? z) && (z <=? 255))
  end.

(** [sys.int_info.default_max_str_digits]: an [int] of more decimal digits
    has no text, [str] raises [ValueError]. *)
Definition int_max_str_digits : Z := 4300.

(** [sys.getrecursionlimit()] at its default: [str] of a value nested
    deeper than the interpreter has levels left raises [RecursionError].
    The levels already in use when line 87 runs are not counted. *)
Definition recursion_limit : nat := 1000.

(** The texts of the elements of a container, one after the other: the
    first exception wins. *)
Fixpoint each_text {A : Type} (text_of : A -> result unit) (l : list A)
    : result unit :=
  match l with
  | [] => Ok tt
  | e :: rest => text <- text_of e ;; each_text text_of rest
  end.

(** [repr(v)] with [remaining] levels left, as far as the validator depends
    on it: the text is not kept, only whether building it raises.  Every
    value entered takes one level.  The elements of a list are visited in
    order; the values of a dict are visited in the order of the map, which
    is not Python's insertion order, so that of two values of one dict that
    raise different exceptions the model may name the other one. *)
Fixpoint py_repr (remaining : nat) (v : json) : result unit :=
  match remaining with
  | O => Raise RecursionError
  | S remaining =>
      match v with
      | JNull | JBool _ | JFloat _ | JStr _ => Ok tt
      | JInt z =>
          if 10 ^ int_max_str_digits <=? Z.abs z then Raise ValueError else Ok tt
      | JList l => each_text (py_repr remaining) l
      | JObj m => each_text (py_repr remaining) (map_to_list m).*2
      end
  end.

(** [f"{value}"], that is [str(value)]. *)
Definition format_value (v : json) : result unit := py_repr recursion_limit v.
Arguments py_repr : simpl never.
Arguments format_value : simpl never.

(** The loop over [enumerate(mh)] with its [break] (lines 85-88); building
    the message of line 87 calls [str] on the element. *)
Fixpoint scan_bytes (i : nat) (mh : list json) (errors : list error)
    : result (list error) :=
  match mh with
  | [] => Ok errors
  | byte :: rest =>
      if not_a_byte byte then
        text <- format_value byte ;;
        Ok (errors ++ [MessageHashByte i byte])
      else scan_bytes (S i) rest errors
  end.

(** Lines 80-88. *)
Definition check_message_hash (att : json) (errors : list error) : result (list error) :=
  present <- py_in "message_hash" att ;;
  if (present : bool) then
    mh <- py_getitem att "message_hash" ;;
    match mh with
    | JList l =>
        if negb (Nat.eqb (length l) 32) then
          Ok (errors ++ [MessageHashNot32 (Some (length l))])
        else scan_bytes 0 l errors
    | _ => Ok (errors ++ [MessageHashNot32 None])
    end
  else Ok errors.

(** Line 95: [aih.removeprefix("0x").removeprefix("0X")] *)
Definition strip_hex_prefix (aih : string) : string :=
  removeprefix "0X" (removeprefix "0x" aih).

(** Lines 93-101, the string case. *)
Definition check_hex_string (aih : string) (errors : list error) : list error :=
  let hex_str := strip_hex_prefix aih in
  let errors :=
    if negb (Nat.eqb (String.length hex_str) 64)
    then errors ++ [AccountHexLength (String.length hex_str)] else errors in
  match fromhex hex_str with
  | Some _ => errors
  | None => errors ++ [AccountNotHex aih]
  end.

(** Lines 91-106. *)
Definition check_account_id_hash (att : json) (errors : list error) : result (list error) :=
  present <- py_in "account_id_hash" att ;;
  if (present : bool) then
    aih <- py_getitem att "account_id_hash" ;;
    match aih with
    | JStr s => Ok (check_hex_string s errors)
    | JList l =>
        if negb (Nat.eqb (length l) 32)
        then Ok (errors ++ [AccountArrayLength (length l)]) else Ok errors
    | _ => Ok (errors ++ [AccountBadType (type_name aih)])
    end
  else Ok errors.

(** One numeric range check (lines 109-111, 113-115, 117-119):
    [field in att and isinstance(att[field], int)], then the comparison. *)
Definition check_range (field : string) (out_of_range : Z -> bool) (e : error)
    (att : json) (errors : list error) : result (list error) :=
  present <- py_in field att ;;
  if (present : bool) then
    v <- py_getitem att field ;;
    match int_value v with
    | Some z => if out_of_range z then Ok (errors ++ [e]) else Ok errors
    | None => Ok errors
    end
  else Ok errors.

Definition negative (z : Z) : bool := z <? 0.
Definition not_u32 (z : Z) : bool := (z <? 0) || (z >? 0xFFFFFFFF).

(** [validate_attestation] (lines 17-121). *)
Definition validate_attestation (attestation_data : json) : result (list error) :=
  let errors := [] in
  present <- py_in "attestation" attestation_data ;;
  if negb present then Ok [MissingTopLevel]
  else
    att <- py_getitem attestation_data "attestation" ;;
    errors <- required_pass att errors ;;
    errors <- check_pair "custodian_pubkey" "x" "y" att errors ;;
    errors <- check_pair "signature" "r" "s" att errors ;;
    errors <- check_message_hash att errors ;;
    errors <- check_account_id_hash att errors ;;
    errors <- check_range "balance_raw" negative BalanceNegative att errors ;;
    errors <- check_range "currency_code_int" not_u32 CurrencyNotU32 att errors ;;
    errors <- check_range "custodian_id" not_u32 CustodianNotU32 att errors ;;
    Ok errors.

(** ** Sample documents *)

Definition document (att : json) : json := JObj {[ "attestation" := att ]}.

Definition bytes32 : list json := replicate 32 (JInt 7).

Definition hex64 : string :=
  "aabbccddeeff00112233445566778899aabbccddeeff00112233445566778811".

Definition pair_obj (first second : string) (a b : json) : json :=
  JObj (<[first := a]> (<[second := b]> ∅)).

(** A document that satisfies the whole schema. *)
Definition valid_att : gmap string json :=
  list_to_map
    [ ("balance_raw", JInt 1000);
      ("currency_code_int", JInt 840);
      ("custodian_id", JInt 42);
      ("attestation_id", JInt 1);
      ("issued_at", JInt 1700000000);
      ("valid_until", JInt 1800000000);
      ("account_id_hash", JStr hex64);
      ("custodian_pubkey", pair_obj "x" "y" (JList bytes32) (JList bytes32));
      ("signature", pair_obj "r" "s" (JList bytes32) (JList bytes32));
      ("message_hash", JList bytes32) ].

Definition valid_document : json := document (JObj valid_att).

(** [valid_document] with one field of the attestation replaced. *)
Definition with_field (field : string) (v : json) : json :=
  document (JObj (<[field := v]> valid_att)).

(** [custodian_pubkey.y] made of 32 strings. *)
Definition strings_in_y : json :=
  with_field "custodian_pubkey"
    (pair_obj "x" "y" (JList bytes32) (JList (replicate 32 (JStr "?")))).

(** [custodian_pubkey.x] with element 5 out of range. *)
Definition big_byte_in_x : json :=
  with_field "custodian_pubkey"
    (pair_obj "x" "y" (JList (<[5%nat := JInt 256]> bytes32)) (JList bytes32)).

(** [account_id_hash] carrying both prefixes. *)
Definition doubled_prefix : json :=
  with_field "account_id_hash" (JStr ("0x0X" +:+ hex64)).

(** [account_id_hash] too short and not hexadecimal. *)
Definition short_account : gmap string json :=
  <["account_id_hash" := JStr "zz"]> valid_att.


(** [balance_raw] negative. *)
Definition negative_balance : gmap string json :=
  <["balance_raw" := JInt (-5)]> valid_att.

(** An attestation dict with most fields missing and the others malformed. *)
Definition malformed_att : gmap string json :=
  list_to_map
    [ ("balance_raw", JStr "lots");
      ("custodian_id", JFloat 0);
      ("account_id_hash", JNull);
      ("custodian_pubkey", pair_obj "x" "z" (JList (replicate 10 (JInt 1))) JNull);
      ("signature", JList []);
      ("message_hash", JObj ∅) ].

(** A document without the top-level key, malformed besides. *)
Definition no_attestation : json :=
  JObj (<["balance_raw" := JStr "oops"]> (<["signature" := JNull]> ∅)).

(** ** What the blocks append, read off the attestation object

    For an attestation that is a dict, every block is a function of the one
    value it looks up.  These are the lists each block appends. *)

Definition field_errors (entry : string * (pytype * string)) (v : option json)
    : list error :=
  let '(field, (expected_type, description)) := entry in
  match v with
  | None => [MissingRequired field description]
  | Some value =>
      if isinstance value expected_type then []
      else [WrongType field (pytype_name expected_type) (type_name value)]
  end.

Definition required_errors (m : gmap string json) : list error :=
  flat_map (fun entry => field_errors entry (m !! entry.1)) required_fields.

Definition pair_errors (parent first second : string) (v : option json)
    : result (list error) :=
  match v with
  | Some (JObj obj) =>
      e1 <- check_member parent first obj [] ;;
      e2 <- check_member parent second obj [] ;;
      Ok (e1 ++ e2)
  | _ => Ok []
  end.

(** What the scan reports when the message can be built: the first element
    that is no byte. *)
Fixpoint scan_report (i : nat) (mh : list json) : list error :=
  match mh with
  | [] => []
  | byte :: rest =>
      if not_a_byte byte then [MessageHashByte i byte]
      else scan_report (S i) rest
  end.

(** Building the message for that element. *)
Fixpoint scan_formats (mh : list json) : result unit :=
  match mh with
  | [] => Ok tt
  | byte :: rest => if not_a_byte byte then format_value byte else scan_formats rest
  end.

Definition message_hash_errors (v : option json) : list error :=
  match v with
  | None => []
  | Some (JList l) =>
      if negb (Nat.eqb (length l) 32) then [MessageHashNot32 (Some (length l))]
      else scan_report 0 l
  | Some _ => [MessageHashNot32 None]
  end.

(** The one message of the [message_hash] block built from an input value:
    that of the scan, run on a list of exactly 32 elements. *)
Definition message_hash_formats (v : option json) : result unit :=
  match v with
  | Some (JList l) => if Nat.eqb (length l) 32 then scan_formats l else Ok tt
  | _ => Ok tt
  end.

Definition account_errors (v : option json) : list error :=
  match v with
  | None => []
  | Some (JStr s) => check_hex_string s []
  | Some (JList l) =>
      if negb (Nat.eqb (length l) 32) then [AccountArrayLength (length l)] else []
  | Some aih => [AccountBadType (type_name aih)]
  end.

Definition range_errors (out_of_range : Z -> bool) (e : error) (v : option json)
    : list error :=
  match v ≫= int_value with
  | Some z => if out_of_range z then [e] else []
  | None => []
  end.

(** What the blocks append for any attestation value, each block run on an
    empty list. *)
Definition block_errors (att : json) : result (list error) :=
  e1 <- required_pass att [] ;;
  e2 <- check_pair "custodian_pubkey" "x" "y" att [] ;;
  e3 <- check_pair "signature" "r" "s" att [] ;;
  e4 <- check_message_hash att [] ;;
  e5 <- check_account_id_hash att [] ;;
  e6 <- check_range "balance_raw" negative BalanceNegative att [] ;;
  e7 <- check_range "currency_code_int" not_u32 CurrencyNotU32 att [] ;;
  e8 <- check_range "custodian_id" not_u32 CustodianNotU32 att [] ;;
  Ok (e1 ++ e2 ++ e3 ++ e4 ++ e5 ++ e6 ++ e7 ++ e8).

(** The whole error list for an attestation dict [m], block after block. *)
Definition object_errors (m : gmap string json) : result (list error) :=
  pk <- pair_errors "custodian_pubkey" "x" "y" (m !! "custodian_pubkey") ;;
  sg <- pair_errors "signature" "r" "s" (m !! "signature") ;;
  text <- message_hash_formats (m !! "message_hash") ;;
  Ok (required_errors m ++ pk ++ sg
      ++ message_hash_errors (m !! "message_hash")
      ++ account_errors (m !! "account_id_hash")
      ++ range_errors negative BalanceNegative (m !! "balance_raw")
      ++ range_errors not_u32 CurrencyNotU32 (m !! "currency_code_int")
      ++ range_errors not_u32 CustodianNotU32 (m !! "custodian_id")).

(** The field an error message is about. *)
Definition error_field (e : error) : string :=
  match e with
  | MissingTopLevel => "attestation"
  | MissingRequired field _ | WrongType field _ _ => field
  | MissingMember parent _ | MemberNot32 parent _ _ => parent
  | MessageHashNot32 _ | MessageHashByte _ _ => "message_hash"
  | AccountHexLength _ | AccountNotHex _
  | AccountArrayLength _ | AccountBadType _ => "account_id_hash"
  | BalanceNegative => "balance_raw"
  | CurrencyNotU32 => "currency_code_int"
  | CustodianNotU32 => "custodian_id"
  end.

(** The messages of [errs] that are about [field], in order. *)
Definition errors_about (field : string) (errs : list error) : list error :=
  filter (fun e => error_field e = field) errs.

(** [es] when the block of field [owner] is the one asked about. *)
Definition keep (owner field : string) (es : list error) : list error :=
  if String.eqb owner field then es else [].

(** The entry of a field in a table such as [required_fields]. *)
Fixpoint entry_of {A : Type} (field : string) (table : list (string * A)) : option A :=
  match table with
  | [] => None
  | (name, a) :: rest => if bool_decide (name = field) then Some a else entry_of field rest
  end.

(** The two messages of the string case of [account_id_hash], each on its
    own condition (lines 96-97 and 98-101). *)
Definition length_error (aih : string) : list error :=
  let hex_str := strip_hex_prefix aih in
  if negb (Nat.eqb (String.length hex_str) 64)
  then [AccountHexLength (String.length hex_str)] else [].

Definition decode_error (aih : string) : list error :=
  if decodes (strip_hex_prefix aih) then [] else [AccountNotHex aih].

(** What the required-field pass says about one field of the dict [m]. *)
Definition required_about (field : string) (m : gmap string json) : list error :=
  match entry_of field required_fields with
  | Some td => field_errors (field, td) (m !! field)
  | None => []
  end.

(** The six fields typed [int] in [required_fields]. *)
Definition int_fields : list string :=
  [ "balance_raw"; "currency_code_int"; "custodian_id";
    "attestation_id"; "issued_at"; "valid_until" ].

(** The four byte-array members that only have their length checked. *)
Definition member_paths : list (string * string) :=
  [ ("custodian_pubkey", "x"); ("custodian_pubkey", "y");
    ("signature", "r"); ("signature", "s") ].

(** ** The schema of section 3

    The invariants, parameterised by the three points on which a reading of
    the schema can differ: what counts as an integer (and its value), what is
    asked of the 32 elements of [x], [y], [r], [s], and which values are a
    well formed [account_id_hash]. *)
Section Invariants.
Variable integer : json -> option Z.
Variable member_ok : list json -> bool.
Variable account_ok : json -> bool.

Definition int_field (v : option json) (ok : Z -> bool) : bool :=
  match v ≫= integer with
  | Some z => ok z
  | None => false
  end.

Definition is_byte (v : json) : bool :=
  match integer v with
  | Some z => (0 <=? z) && (z <=? 255)
  | None => false
  end.

Definition member_array (v : option json) : bool :=
  match v with
  | Some (JList l) => Nat.eqb (length l) 32 && member_ok l
  | _ => false
  end.

Definition pair_field (v : option json) (first second : string) : bool :=
  match v with
  | Some (JObj obj) => member_array (obj !! first) && member_array (obj !! second)
  | _ => false
  end.

Definition byte_array (v : option json) : bool :=
  match v with
  | Some (JList l) => Nat.eqb (length l) 32 && forallb is_byte l
  | _ => false
  end.

Definition account_field (v : option json) : bool :=
  match v with
  | Some aih => account_ok aih
  | None => false
  end.

Definition attestation_ok (m : gmap string json) : bool :=
  int_field (m !! "balance_raw") (fun z => 0 <=? z)
  && int_field (m !! "currency_code_int") (fun z => (0 <=? z) && (z <=? 2 ^ 32 - 1))
  && int_field (m !! "custodian_id") (fun z => (0 <=? z) && (z <=? 2 ^ 32 - 1))
  && int_field (m !! "attestation_id") (fun _ => true)
  && int_field (m !! "issued_at") (fun _ => true)
  && int_field (m !! "valid_until") (fun _ => true)
  && account_field (m !! "account_id_hash")
  && pair_field (m !! "custodian_pubkey") "x" "y"
  && pair_field (m !! "signature") "r" "s"
  && byte_array (m !! "message_hash").

Definition invariants (doc : json) : bool :=
  match doc with
  | JObj d =>
      match d !! "attestation" with
      | Some (JObj m) => attestation_ok m
      | _ => false
      end
  | _ => false
  end.
End Invariants.

(** "strip one optional leading 0x or 0X" *)
Definition strip_one_prefix (s : string) : string :=
  match strip_prefix "0x" s with
  | Some rest => rest
  | None => removeprefix "0X" s
  end.

Definition is_hex_digit (c : ascii) : bool :=
  match hex_digit c with
  | Some _ => true
  | None => false
  end.

Fixpoint all_hex (s : string) : bool :=
  match s with
  | EmptyString => true
  | String c rest => is_hex_digit c && all_hex rest
  end.

(** The schema as section 3 words it: integers are JSON integers, the
    members [x], [y], [r], [s] are byte arrays like [message_hash], and
    [account_id_hash] is 64 hexadecimal characters after one optional prefix,
    or an array of 32 bytes. *)
Definition spec_integer (v : json) : option Z :=
  match v with
  | JInt z => Some z
  | _ => None
  end.

Definition spec_account (aih : json) : bool :=
  match aih with
  | JStr s =>
      let hex_str := strip_one_prefix s in
      Nat.eqb (String.length hex_str) 64 && all_hex hex_str
  | JList l => Nat.eqb (length l) 32 && forallb (is_byte spec_integer) l
  | _ => false
  end.

Definition spec_invariants : json -> bool :=
  invariants spec_integer (forallb (is_byte spec_integer)) spec_account.

(** The schema as the validator enforces it: a [bool] passes for an integer,
    only the length of [x], [y], [r], [s] is looked at, and [account_id_hash]
    is a string of 64 characters, after one optional prefix, that
    [bytes.fromhex] accepts. *)
Definition hex_account (strip : string -> string) (aih : json) : bool :=
  match aih with
  | JStr s =>
      let hex_str := strip s in
      Nat.eqb (String.length hex_str) 64 && decodes hex_str
  | _ => false
  end.

Definition code_account : json -> bool := hex_account strip_one_prefix.

Definition code_invariants : json -> bool :=
  invariants int_value (fun _ => true) code_account.

(** [doc["attestation"]["account_id_hash"]], where that path exists. *)
Definition account_id_hash_of (doc : json) : option json :=
  match doc with
  | JObj d =>
      match d !! "attestation" with
      | Some (JObj m) => m !! "account_id_hash"
      | _ => None
      end
  | _ => None
  end.

(** The [account_id_hash] of the document, if there is one, is neither an
    array nor a string that starts with the doubled prefix [0x0X]. *)
Definition account_id_hash_regular (doc : json) : bool :=
  match account_id_hash_of doc with
  | Some (JList _) => false
  | Some (JStr s) => match strip_prefix "0x0X" s with Some _ => false | None => true end
  | _ => true
  end.

(** ["attestation" not in doc] holds, for the containers that support [in]. *)
Definition lacks_attestation (doc : json) : bool :=
  match doc with
  | JObj d => match d !! "attestation" with Some _ => false | None => true end
  | JList l => negb (existsb (eq_str "attestation") l)
  | JStr s => negb (str_contains "attestation" s)
  | _ => false
  end.

(** [isinstance] of a looked-up value, a missing key having no type. *)
Definition has_type (v : option json) (t : pytype) : bool :=
  match v with
  | Some value => isinstance value t
  | None => false
  end.

(** ** Vocabulary of the further properties *)

(** [len(v)] raises: [v] is [None], a [bool] or a number. *)
Definition lacks_len (v : json) : bool :=
  match v with
  | JNull | JBool _ | JInt _ | JFloat _ => true
  | JStr _ | JList _ | JObj _ => false
  end.

(** The member is present in the dict [obj] and has no [len]. *)
Definition member_crashes (obj : gmap string json) (member : string) : bool :=
  match obj !! member with
  | Some v => lacks_len v
  | None => false
  end.

Definition pair_crashes (v : option json) (first second : string) : bool :=
  match v with
  | Some (JObj obj) => member_crashes obj first || member_crashes obj second
  | _ => false
  end.

(** [field in att] for an attestation that is a list or a string. *)
Definition mentions (att : json) (field : string) : bool :=
  match att with
  | JList l => existsb (eq_str field) l
  | JStr s => str_contains field s
  | _ => false
  end.

Definition is_sequence (att : json) : bool :=
  match att with
  | JList _ | JStr _ => true
  | _ => false
  end.

(** The ten "missing" messages, in table order. *)
Definition all_missing : list error :=
  map (fun entry : string * (pytype * string) =>
         MissingRequired entry.1 entry.2.2) required_fields.

(** The number of whitespace characters of a string. *)
Fixpoint count_space (s : string) : nat :=
  match s with
  | EmptyString => 0
  | String c rest => ((if isspace c then 1 else 0) + count_space rest)%nat
  end.

(** What the format check says of an [account_id_hash] that is no string. *)
Definition non_string_verdict (aih : json) : list error :=
  match aih with
  | JList l =>
      if negb (Nat.eqb (length l) 32) then [AccountArrayLength (length l)] else []
  | _ => [AccountBadType (type_name aih)]
  end.

(** [signature.s] is [null]. *)
Definition null_member_att : gmap string json :=
  <["signature" := pair_obj "r" "s" (JList bytes32) JNull]> valid_att.

(** 31 pairs of hexadecimal digits and two blanks: 64 characters. *)
Definition spaced_hex : string :=
  "aabbccddeeff00112233445566778899 aabbccddeeff001122334455667788 ".

(** The prefixes line 95 can take off a string. *)
Definition strippable : list string := [""; "0x"; "0X"; "0x0X"].

(** An attestation on which every block reports as much as it can. *)
Definition worst_att : gmap string json :=
  list_to_map
    [ ("account_id_hash", JNull);
      ("custodian_pubkey", JObj ∅);
      ("signature", JObj ∅);
      ("message_hash", JNull) ].

(** ** The documents on which the validator returns *)

(** [str(v)] has a text whatever the interpreter has left at line 87: no
    [int] beyond the digit limit in [v], and at most 100 levels of nesting. *)
Definition formats_safely (v : json) : bool :=
  match py_repr 100 v with
  | Ok _ => true
  | Raise _ => false
  end.

(** The element the scan reports, if there is one, formats safely. *)
Fixpoint reported_formats_safely (mh : list json) : bool :=
  match mh with
  | [] => true
  | byte :: rest =>
      if not_a_byte byte then formats_safely byte else reported_formats_safely rest
  end.

Definition message_text_safe (v : option json) : bool :=
  match v with
  | Some (JList l) =>
      if Nat.eqb (length l) 32 then reported_formats_safely l else true
  | _ => true
  end.

(** The documents of the theorem on exceptions:
    - a dict without [attestation], or a list or string in which
      ["attestation"] does not occur;
    - a dict whose attestation is a list or string in which none of the ten
      field names occurs;
    - a dict whose attestation is a dict in which the members [x], [y], [r],
      [s], where present, have a length, and the element of [message_hash]
      that the scan reports, if any, formats safely. *)
Definition returns_normally (doc : json) : bool :=
  match doc with
  | JObj d =>
      match d !! "attestation" with
      | None => true
      | Some (JObj m) =>
          negb (pair_crashes (m !! "custodian_pubkey") "x" "y")
          && negb (pair_crashes (m !! "signature") "r" "s")
          && message_text_safe (m !! "message_hash")
      | Some att =>
          is_sequence att
          && negb (existsb (fun entry => mentions att entry.1) required_fields)
      end
  | JList _ | JStr _ => lacks_attestation doc
  | JNull | JBool _ | JInt _ | JFloat _ => false
  end.

(** An attestation dict malformed in the ways the validator reports: a
    string and a dict where arrays of bytes belong, a list for a dict, a
    nested list among the bytes. *)
Definition odd_att : gmap string json :=
  list_to_map
    [ ("balance_raw", JStr "lots");
      ("custodian_pubkey", pair_obj "x" "y" (JStr "abc") (JObj ∅));
      ("signature", JList []);
      ("message_hash",
       JList (replicate 3 (JInt 0) ++ JList [JInt (-1); JStr "a"]
                :: replicate 28 (JInt 0))) ].

(** ** Every block only appends to [errors] *)

(** A block [f] frames the list it is given: what it appends does not depend
    on what was already there. *)
Definition frames (f : list error -> result (list error)) : Prop :=
  forall acc, f acc = (es <- f [] ;; Ok (acc ++ es)).

Lemma frames_ok_id : frames (fun acc => Ok acc).
Proof. intros acc. simpl. by rewrite app_nil_r. Qed.

Lemma frames_append (e : error) : frames (fun acc => Ok (acc ++ [e])).
Proof. intros acc. reflexivity. Qed.

Lemma frames_seq (f g : list error -> result (list error)) :
  frames f -> frames g -> frames (fun acc => es <- f acc ;; g es).
Proof.
  intros Hf Hg acc. rewrite (Hf acc).
  destruct (f []) as [es|x]; simpl; [|done].
  rewrite (Hg (acc ++ es)), (Hg es).
  destruct (g []) as [es'|x]; simpl; [|done].
  by rewrite app_assoc.
Qed.

Lemma frames_bind {A} (r : result A) (k : A -> list error -> result (list error)) :
  (forall a, frames (k a)) -> frames (fun acc => a <- r ;; k a acc).
Proof. intros Hk acc. destruct r as [a|x]; simpl; [apply Hk | done]. Qed.

Lemma frames_check_required_field att entry :
  frames (fun acc => check_required_field att acc entry).
Proof.
  destruct entry as [field [expected_type description]]. unfold check_required_field.
  apply frames_bind; intros present. destruct present; simpl.
  - apply frames_bind; intros value.
    destruct (isinstance value expected_type); simpl;
      [apply frames_ok_id | apply frames_append].
  - apply frames_append.
Qed.

Lemma frames_for_each {A} (body : list error -> A -> result (list error)) items :
  (forall item, frames (fun acc => body acc item)) ->
  frames (fun acc => for_each body acc items).
Proof.
  intros Hbody. induction items as [|item rest IH]; simpl.
  - apply frames_ok_id.
  - apply (frames_seq (fun acc => body acc item) (fun acc => for_each body acc rest)); auto.
Qed.

Lemma frames_check_member parent member obj : frames (check_member parent member obj).
Proof.
  unfold check_member. destruct (obj !! member) as [v|]; [|apply frames_append].
  apply frames_bind; intros bad. destruct bad; [|apply frames_ok_id].
  apply frames_bind; intros got. apply frames_append.
Qed.

Lemma frames_check_pair parent first second att :
  frames (check_pair parent first second att).
Proof.
  unfold check_pair. apply frames_bind; intros present.
  destruct present; [|apply frames_ok_id].
  apply frames_bind; intros v.
  destruct v; try apply frames_ok_id.
  apply (frames_seq (check_member parent first m) (check_member parent second m));
    apply frames_check_member.
Qed.

(** The scan raises what building its message raises, and otherwise
    appends its report. *)
Lemma scan_bytes_split i mh acc :
  scan_bytes i mh acc = (text <- scan_formats mh ;; Ok (acc ++ scan_report i mh)).
Proof.
  revert i. induction mh as [|byte rest IH]; intros i; simpl.
  - by rewrite app_nil_r.
  - destruct (not_a_byte byte); [|apply IH].
    by destruct (format_value byte) as [[]|x].
Qed.

Lemma frames_check_message_hash att : frames (check_message_hash att).
Proof.
  unfold check_message_hash. apply frames_bind; intros present.
  destruct present; [|apply frames_ok_id].
  apply frames_bind; intros mh.
  destruct mh; try apply frames_append.
  destruct (negb (length l =? 32)%nat); [apply frames_append|].
  intros acc. simpl. rewrite (scan_bytes_split 0 l acc), (scan_bytes_split 0 l []).
  by destruct (scan_formats l).
Qed.

Lemma check_hex_string_app aih acc :
  check_hex_string aih acc = acc ++ check_hex_string aih [].
Proof.
  unfold check_hex_string.
  destruct (negb _), (fromhex _); simpl; by rewrite ?app_nil_r, <-?app_assoc.
Qed.

Lemma frames_check_account_id_hash att : frames (check_account_id_hash att).
Proof.
  unfold check_account_id_hash. apply frames_bind; intros present.
  destruct present; [|apply frames_ok_id].
  apply frames_bind; intros aih.
  destruct aih; try apply frames_append.
  - intros acc. simpl. by rewrite check_hex_string_app.
  - destruct (negb _); [apply frames_append | apply frames_ok_id].
Qed.

Lemma frames_check_range field bad e att : frames (check_range field bad e att).
Proof.
  unfold check_range. apply frames_bind; intros present.
  destruct present; [|apply frames_ok_id].
  apply frames_bind; intros v.
  destruct (int_value v) as [z|]; [|apply frames_ok_id].
  destruct (bad z); [apply frames_append | apply frames_ok_id].
Qed.

(** ** The blocks on an attestation dict *)

Lemma check_required_field_obj (m : gmap string json) entry :
  check_required_field (JObj m) [] entry = Ok (field_errors entry (m !! entry.1)).
Proof.
  destruct entry as [field [expected_type description]]; simpl.
  destruct (m !! field) as [value|]; simpl; [|done].
  by destruct (isinstance value expected_type).
Qed.

Lemma for_each_obj (m : gmap string json) entries :
  for_each (check_required_field (JObj m)) [] entries
  = Ok (flat_map (fun entry => field_errors entry (m !! entry.1)) entries).
Proof.
  induction entries as [|entry rest IH]; simpl; [done|].
  rewrite check_required_field_obj; simpl.
  pose proof (frames_for_each (check_required_field (JObj m)) rest
                (frames_check_required_field (JObj m))) as Hfr.
  rewrite (Hfr (field_errors entry (m !! entry.1))), IH. reflexivity.
Qed.

Lemma required_pass_obj (m : gmap string json) :
  required_pass (JObj m) [] = Ok (required_errors m).
Proof. apply for_each_obj. Qed.

Lemma check_pair_obj parent first second (m : gmap string json) :
  check_pair parent first second (JObj m) []
  = pair_errors parent first second (m !! parent).
Proof.
  unfold check_pair, pair_errors; simpl.
  destruct (m !! parent) as [v|]; simpl; [|done].
  destruct v; try done.
  destruct (check_member parent first m0 []) as [e1|x]; simpl; [|done].
  rewrite (frames_check_member parent second m0 e1). reflexivity.
Qed.

Lemma check_message_hash_obj (m : gmap string json) :
  check_message_hash (JObj m) []
  = (text <- message_hash_formats (m !! "message_hash") ;;
     Ok (message_hash_errors (m !! "message_hash"))).
Proof.
  unfold check_message_hash, message_hash_errors, message_hash_formats; simpl.
  destruct (m !! "message_hash") as [v|]; simpl; [|done].
  destruct v; try done.
  destruct (length l =? 32)%nat; simpl; [|done]. apply scan_bytes_split.
Qed.

Lemma check_account_id_hash_obj (m : gmap string json) :
  check_account_id_hash (JObj m) [] = Ok (account_errors (m !! "account_id_hash")).
Proof.
  unfold check_account_id_hash, account_errors; simpl.
  destruct (m !! "account_id_hash") as [v|]; simpl; [|done].
  destruct v; try done. by destruct (negb _).
Qed.

Lemma check_range_obj field bad e (m : gmap string json) :
  check_range field bad e (JObj m) [] = Ok (range_errors bad e (m !! field)).
Proof.
  unfold check_range, range_errors; simpl.
  destruct (m !! field) as [v|]; simpl; [|done].
  destruct (int_value v) as [z|]; [|done]. by destruct (bad z).
Qed.

(** The validator past the top-level check: the blocks run one after the
    other, each appending to what the earlier ones collected. *)
Lemma validate_blocks (d : gmap string json) att :
  d !! "attestation" = Some att ->
  validate_attestation (JObj d) = block_errors att.
Proof.
  intros Hatt. unfold validate_attestation, block_errors; simpl.
  rewrite Hatt; simpl.
  destruct (required_pass att []) as [e1|x]; simpl; [|done].
  rewrite (frames_check_pair _ _ _ _ e1).
  destruct (check_pair "custodian_pubkey" _ _ _ []) as [e2|x]; simpl; [|done].
  rewrite (frames_check_pair _ _ _ _ (e1 ++ e2)).
  destruct (check_pair "signature" _ _ _ []) as [e3|x]; simpl; [|done].
  rewrite (frames_check_message_hash _ (_ ++ e3)).
  destruct (check_message_hash att []) as [e4|x]; simpl; [|done].
  rewrite (frames_check_account_id_hash _ (_ ++ e4)).
  destruct (check_account_id_hash att []) as [e5|x]; simpl; [|done].
  rewrite (frames_check_range _ _ _ _ (_ ++ e5)).
  destruct (check_range "balance_raw" _ _ _ []) as [e6|x]; simpl; [|done].
  rewrite (frames_check_range _ _ _ _ (_ ++ e6)).
  destruct (check_range "currency_code_int" _ _ _ []) as [e7|x]; simpl; [|done].
  rewrite (frames_check_range _ _ _ _ (_ ++ e7)).
  destruct (check_range "custodian_id" _ _ _ []) as [e8|x]; simpl; [|done].
  by rewrite <-!app_assoc.
Qed.

Lemma block_errors_obj (m : gmap string json) :
  block_errors (JObj m) = object_errors m.
Proof.
  unfold block_errors, object_errors.
  rewrite required_pass_obj, !check_pair_obj, check_message_hash_obj,
    check_account_id_hash_obj, !check_range_obj; simpl.
  destruct (pair_errors "custodian_pubkey" _ _ _) as [pk|x]; simpl; [|done].
  destruct (pair_errors "signature" _ _ _) as [sg|x]; simpl; [|done].
  by destruct (message_hash_formats _) as [[]|x].
Qed.

(** The validator on a document whose attestation is a dict. *)
Lemma validate_object (d m : gmap string json) :
  d !! "attestation" = Some (JObj m) ->
  validate_attestation (JObj d) = object_errors m.
Proof. intros Hatt. by rewrite (validate_blocks d _ Hatt), block_errors_obj. Qed.


Lemma frames_extends (f : list error -> result (list error)) acc es :
  frames f -> f acc = Ok es -> exists es', es = acc ++ es'.
Proof.
  intros Hf. rewrite (Hf acc). destruct (f []) as [es'|x]; simpl; [|done].
  intros [= <-]. eauto.
Qed.

Lemma for_each_cons {A} (body : list error -> A -> result (list error)) acc item rest :
  for_each body acc (item :: rest)
  = (errors' <- body acc item ;; for_each body errors' rest).
Proof. reflexivity. Qed.

Lemma check_required_field_not_obj att entry e1 :
  (forall m, att <> JObj m) -> check_required_field att [] entry = Ok e1 -> e1 <> [].
Proof.
  intros Hatt. destruct entry as [field [expected_type description]].
  unfold check_required_field.
  destruct att as [| | | | s | l | m]; cbn [py_in py_getitem bind]; try done.
  - destruct (str_contains field s); cbn [negb]; [done | by intros [= <-]].
  - destruct (existsb _ l); cbn [negb]; [done | by intros [= <-]].
  - by destruct (Hatt m).
Qed.

(** On an attestation that is not a dict the required-field pass cannot
    come back empty: a field is either reported missing, or found in the
    list or string, which then cannot be indexed by its name. *)
Lemma required_pass_not_obj att es :
  (forall m, att <> JObj m) -> required_pass att [] = Ok es -> es <> [].
Proof.
  intros Hatt. unfold required_pass, required_fields. rewrite for_each_cons.
  destruct (check_required_field att [] _) as [e1|x] eqn:He1; cbn [bind]; [|done].
  apply check_required_field_not_obj in He1; [|done].
  intros [es' ->]%(frames_extends (fun acc => for_each _ acc _));
    [|apply frames_for_each; intros; apply frames_check_required_field].
  by destruct e1.
Qed.

(** ** When a block appends nothing *)

Lemma field_errors_nil field t description v :
  field_errors (field, (t, description)) v = [] <-> has_type v t = true.
Proof.
  unfold field_errors, has_type. destruct v as [value|]; [|done].
  by destruct (isinstance value t).
Qed.

Lemma required_errors_nil (m : gmap string json) :
  required_errors m = [] <->
    has_type (m !! "balance_raw") TInt = true
    /\ has_type (m !! "currency_code_int") TInt = true
    /\ has_type (m !! "custodian_id") TInt = true
    /\ has_type (m !! "attestation_id") TInt = true
    /\ has_type (m !! "issued_at") TInt = true
    /\ has_type (m !! "valid_until") TInt = true
    /\ has_type (m !! "account_id_hash") TStr = true
    /\ has_type (m !! "custodian_pubkey") TDict = true
    /\ has_type (m !! "signature") TDict = true
    /\ has_type (m !! "message_hash") TList = true.
Proof.
  unfold required_errors, required_fields.
  cbn [flat_map fst]. rewrite !app_nil, !field_errors_nil.
  intuition.
Qed.

Lemma check_member_nil parent member (obj : gmap string json) :
  check_member parent member obj [] = Ok []
  <-> member_array (fun _ => true) (obj !! member) = true.
Proof.
  unfold check_member, member_array.
  destruct (obj !! member) as [v|]; [|done].
  destruct v; simpl; try done.
  rewrite andb_true_r. by destruct (length l =? 32)%nat.
Qed.

Lemma pair_errors_nil parent first second v :
  has_type v TDict = true ->
  (pair_errors parent first second v = Ok []
   <-> pair_field (fun _ => true) v first second = true).
Proof.
  destruct v as [[]|]; try done. intros _. unfold pair_errors, pair_field.
  rewrite andb_true_iff, <-!(check_member_nil parent).
  destruct (check_member parent first m []) as [e1|x] eqn:H1; simpl;
    [|split; [done | by intros [? _]]].
  destruct (check_member parent second m []) as [e2|x] eqn:H2; simpl;
    [|split; [done | by intros [_ ?]]].
  split.
  - intros [= [-> ->]%app_nil]. done.
  - intros [[= ->] [= ->]]. done.
Qed.

Lemma scan_report_nil i l :
  scan_report i l = [] <-> forallb (is_byte int_value) l = true.
Proof.
  revert i. induction l as [|byte rest IH]; intros i; simpl; [done|].
  unfold not_a_byte, is_byte at 1.
  destruct (int_value byte) as [z|]; simpl; [|done].
  destruct ((0 <=? z) && (z <=? 255)); simpl; [apply IH | done].
Qed.

(** Where the scan reports nothing, no message is built. *)
Lemma scan_formats_clean i l : scan_report i l = [] -> scan_formats l = Ok tt.
Proof.
  revert i. induction l as [|byte rest IH]; intros i; simpl; [done|].
  destruct (not_a_byte byte); [done | apply IH].
Qed.

Lemma message_hash_formats_clean v :
  message_hash_errors v = [] -> message_hash_formats v = Ok tt.
Proof.
  unfold message_hash_errors, message_hash_formats.
  destruct v as [[]|]; try done.
  destruct (length l =? 32)%nat; simpl; [apply scan_formats_clean | done].
Qed.

Lemma message_hash_errors_nil v :
  has_type v TList = true ->
  (message_hash_errors v = [] <-> byte_array int_value v = true).
Proof.
  destruct v as [[]|]; try done. intros _. unfold message_hash_errors, byte_array.
  destruct (length l =? 32)%nat; simpl; [apply scan_report_nil | done].
Qed.

Lemma check_hex_string_nil aih :
  check_hex_string aih [] = []
  <-> String.length (strip_hex_prefix aih) = 64%nat
      /\ decodes (strip_hex_prefix aih) = true.
Proof.
  unfold check_hex_string, decodes.
  destruct (String.length (strip_hex_prefix aih) =? 64)%nat eqn:Hlen; simpl.
  - apply Nat.eqb_eq in Hlen. destruct (fromhex _); [done|].
    split; [done | by intros [_ ?]].
  - apply Nat.eqb_neq in Hlen.
    destruct (fromhex _); (split; [done | by intros [? _]]).
Qed.

Lemma strip_prefix_app p1 p2 s :
  strip_prefix (p1 +:+ p2) s = strip_prefix p1 s ≫= strip_prefix p2.
Proof.
  revert s. induction p1 as [|a p1 IH]; intros s; [done|].
  destruct s as [|b s]; [done|].
  change (strip_prefix (String a p1 +:+ p2) (String b s))
    with (if Ascii.eqb a b then strip_prefix (p1 +:+ p2) s else None).
  change (strip_prefix (String a p1) (String b s))
    with (if Ascii.eqb a b then strip_prefix p1 s else None).
  destruct (Ascii.eqb a b); [apply IH | done].
Qed.

(** Away from the doubled prefix, line 95 strips one optional prefix. *)
Lemma strip_hex_prefix_single s :
  strip_prefix "0x0X" s = None -> strip_hex_prefix s = strip_one_prefix s.
Proof.
  change "0x0X" with ("0x" +:+ "0X"). rewrite strip_prefix_app.
  unfold strip_hex_prefix, strip_one_prefix, removeprefix.
  destruct (strip_prefix "0x" s) as [rest|]; cbn [mbind option_bind]; [|done].
  by intros ->.
Qed.

Lemma account_errors_nil v :
  has_type v TStr = true ->
  (account_errors v = [] <-> account_field (hex_account strip_hex_prefix) v = true).
Proof.
  destruct v as [[]|]; try done. intros _.
  unfold account_errors, account_field, hex_account.
  rewrite check_hex_string_nil, andb_true_iff, Nat.eqb_eq. done.
Qed.

Lemma has_type_int v : has_type v TInt = int_field int_value v (fun _ => true).
Proof. by destruct v as [[]|]. Qed.

(** ** The empty error list, field by field *)

Lemma int_field_any v :
  int_field int_value v (fun _ => true) = true <-> has_type v TInt = true.
Proof. by rewrite has_type_int. Qed.

Lemma int_field_balance v :
  int_field int_value v (fun z => 0 <=? z) = true
  <-> has_type v TInt = true /\ range_errors negative BalanceNegative v = [].
Proof.
  unfold int_field, range_errors, negative.
  destruct v as [[| [] | z | | | |]|]; simpl; try (intuition congruence).
  destruct (Z.ltb_spec z 0), (Z.leb_spec 0 z); try lia; intuition congruence.
Qed.

Lemma int_field_u32 e v :
  int_field int_value v (fun z => (0 <=? z) && (z <=? 2 ^ 32 - 1)) = true
  <-> has_type v TInt = true /\ range_errors not_u32 e v = [].
Proof.
  unfold int_field, range_errors, not_u32.
  destruct v as [[| [] | z | | | |]|]; simpl; try (intuition congruence).
  change (2 ^ 32 - 1) with 4294967295.
  destruct (Z.ltb_spec z 0), (Z.leb_spec 0 z), (Z.leb_spec z 4294967295),
    (Z.gtb_spec z 4294967295); simpl; try lia; intuition congruence.
Qed.

Lemma account_field_code v :
  account_field (hex_account strip_hex_prefix) v = true
  <-> has_type v TStr = true /\ account_errors v = [].
Proof.
  split.
  - intros H. assert (has_type v TStr = true) as Ht by (by destruct v as [[]|]).
    split; [done|]. by apply account_errors_nil.
  - intros [Ht H]. by apply account_errors_nil.
Qed.

Lemma pair_field_code parent first second v :
  pair_field (fun _ => true) v first second = true
  <-> has_type v TDict = true /\ pair_errors parent first second v = Ok [].
Proof.
  split.
  - intros H. assert (has_type v TDict = true) as Ht by (by destruct v as [[]|]).
    split; [done|]. by apply pair_errors_nil.
  - intros [Ht H]. by apply (pair_errors_nil parent).
Qed.

Lemma byte_array_code v :
  byte_array int_value v = true
  <-> has_type v TList = true /\ message_hash_errors v = [].
Proof.
  split.
  - intros H. assert (has_type v TList = true) as Ht by (by destruct v as [[]|]).
    split; [done|]. by apply message_hash_errors_nil.
  - intros [Ht H]. by apply message_hash_errors_nil.
Qed.

Lemma object_errors_nil_split (m : gmap string json) :
  object_errors m = Ok [] <->
    pair_errors "custodian_pubkey" "x" "y" (m !! "custodian_pubkey") = Ok []
    /\ pair_errors "signature" "r" "s" (m !! "signature") = Ok []
    /\ required_errors m = []
    /\ message_hash_errors (m !! "message_hash") = []
    /\ account_errors (m !! "account_id_hash") = []
    /\ range_errors negative BalanceNegative (m !! "balance_raw") = []
    /\ range_errors not_u32 CurrencyNotU32 (m !! "currency_code_int") = []
    /\ range_errors not_u32 CustodianNotU32 (m !! "custodian_id") = [].
Proof.
  unfold object_errors.
  destruct (pair_errors "custodian_pubkey" _ _ _) as [pk|x]; simpl;
    [|split; [done | by intros [? _]]].
  destruct (pair_errors "signature" _ _ _) as [sg|x]; simpl;
    [|split; [done | by intros (_ & ? & _)]].
  split.
  - destruct (message_hash_formats _) as [[]|x]; simpl; [|done].
    intros [= H]. repeat (apply app_nil in H as [? H]). by subst.
  - intros ([= ->] & [= ->] & -> & Hmh & -> & -> & -> & ->).
    by rewrite (message_hash_formats_clean _ Hmh), Hmh.
Qed.

(** The validator returns no error on an attestation dict exactly when the
    dict meets the schema as the validator enforces it. *)
Lemma object_errors_nil (m : gmap string json) :
  object_errors m = Ok []
  <-> attestation_ok int_value (fun _ => true) (hex_account strip_hex_prefix) m = true.
Proof.
  rewrite object_errors_nil_split, required_errors_nil.
  unfold attestation_ok. rewrite !andb_true_iff.
  rewrite int_field_balance, (int_field_u32 CurrencyNotU32),
    (int_field_u32 CustodianNotU32), !int_field_any,
    account_field_code, (pair_field_code "custodian_pubkey"),
    (pair_field_code "signature"), byte_array_code.
  tauto.
Qed.

(** ** The validator on any value *)

Lemma validate_not_obj_att (d : gmap string json) att :
  d !! "attestation" = Some att -> (forall m, att <> JObj m) ->
  validate_attestation (JObj d) <> Ok [].
Proof.
  intros Hatt Hno. rewrite (validate_blocks d att Hatt). unfold block_errors.
  destruct (required_pass att []) as [e1|x] eqn:He1; cbn [bind]; [|done].
  apply required_pass_not_obj in He1; [|done].
  repeat match goal with
         | |- bind ?r _ <> _ => destruct r; cbn [bind]; [|done]
         end.
  intros [= H]. by apply app_nil in H as [? _].
Qed.

Lemma validate_lacking doc :
  lacks_attestation doc = true -> validate_attestation doc = Ok [MissingTopLevel].
Proof.
  unfold validate_attestation, lacks_attestation.
  destruct doc as [| | | | s | l | d]; cbn [py_in bind]; try done.
  - by intros ->.
  - by intros ->.
  - by destruct (d !! "attestation").
Qed.

Lemma validate_empty_is_object doc :
  validate_attestation doc = Ok [] ->
  exists d m, doc = JObj d /\ d !! "attestation" = Some (JObj m).
Proof.
  destruct doc as [| | | | s | l | d]; try done.
  - unfold validate_attestation; cbn [py_in bind].
    by destruct (str_contains "attestation" s).
  - unfold validate_attestation; cbn [py_in bind].
    by destruct (existsb (eq_str "attestation") l).
  - destruct (d !! "attestation") as [att|] eqn:Hatt.
    + destruct att; try (intros []%(validate_not_obj_att d _ Hatt); done).
      eauto.
    + by rewrite (validate_lacking (JObj d)) by (simpl; by rewrite Hatt).
Qed.

(** The validator returns the empty list exactly on the documents that meet
    the schema as it enforces it, whatever the prefix of [account_id_hash]. *)
Lemma validate_empty_iff doc :
  validate_attestation doc = Ok []
  <-> invariants int_value (fun _ => true) (hex_account strip_hex_prefix) doc = true.
Proof.
  split.
  - intros H. destruct (validate_empty_is_object doc H) as (d & m & -> & Hatt).
    simpl. rewrite Hatt. apply object_errors_nil. by rewrite <-(validate_object d m).
  - destruct doc as [| | | | | | d]; try done. simpl.
    destruct (d !! "attestation") as [[]|] eqn:Hatt; try done.
    intros H. rewrite (validate_object d _ Hatt). by apply object_errors_nil.
Qed.

Lemma hex_account_regular s :
  strip_prefix "0x0X" s = None ->
  hex_account strip_hex_prefix (JStr s) = code_account (JStr s).
Proof.
  intros H. unfold code_account, hex_account. by rewrite strip_hex_prefix_single.
Qed.

Lemma invariants_regular doc :
  account_id_hash_regular doc = true ->
  invariants int_value (fun _ => true) (hex_account strip_hex_prefix) doc
  = code_invariants doc.
Proof.
  unfold account_id_hash_regular, code_invariants.
  destruct doc as [| | | | | | d]; try done. cbn [account_id_hash_of invariants].
  destruct (d !! "attestation") as [[]|]; try done.
  unfold attestation_ok, account_field.
  destruct (m !! "account_id_hash") as [[]|]; try done.
  destruct (strip_prefix "0x0X" s) eqn:Hs; [done|]. intros _.
  by rewrite (hex_account_regular s Hs).
Qed.

(** ** C1: the empty list and the schema *)

(** C1, as the source has it.  For every document whose [account_id_hash]
    is neither an array nor a string starting with the doubled prefix
    [0x0X], the validator returns the empty error list if and only if the
    document is a dict whose attestation is a dict in which: the six numeric
    fields are Python ints (JSON integers or booleans), [balance_raw] is not
    negative, [currency_code_int] and [custodian_id] lie in [0, 2^32-1],
    [custodian_pubkey.x/.y] and [signature.r/.s] are arrays of exactly 32
    elements of any kind, [message_hash] is an array of 32 ints in [0,255],
    and [account_id_hash] is a string whose remainder after one optional
    [0x]/[0X] has 64 characters that [bytes.fromhex] accepts. *)
Theorem C1_empty_iff_enforced_schema doc :
  account_id_hash_regular doc = true ->
  (validate_attestation doc = Ok [] <-> code_invariants doc = true).
Proof.
  intros Hreg. by rewrite validate_empty_iff, invariants_regular.
Qed.

Lemma C1_witness :
  account_id_hash_regular valid_document = true
  /\ (validate_attestation valid_document = Ok []
      <-> code_invariants valid_document = true).
Proof.
  split; [vm_compute; reflexivity|].
  apply (C1_empty_iff_enforced_schema valid_document). vm_compute; reflexivity.
Defined.

(** C1 as the schema words it fails: with 32 strings under
    [custodian_pubkey.y] the validator still returns the empty list. *)
Lemma C1_counterexample :
  ~ (validate_attestation strings_in_y = Ok []
     <-> spec_invariants strings_in_y = true).
Proof.
  intros [H _].
  assert (validate_attestation strings_in_y = Ok []) as Hv
    by (vm_compute; reflexivity).
  apply H in Hv. vm_compute in Hv. discriminate.
Qed.

(** ** C2: exceptions *)

(** C2 as stated fails: an attestation that is a number makes the first
    membership test raise. *)
Lemma C2_counterexample :
  validate_attestation (document (JInt 5)) = Raise TypeError.
Proof. vm_compute. reflexivity. Qed.

(** ** C3: the top-level check *)

(** C3, as the source has it.  If the document is a dict without the key
    [attestation] (or an array with no element equal to that string, or a
    string that does not contain it), the validator returns exactly one
    error and checks nothing else, whatever else is wrong with the input. *)
Theorem C3_missing_attestation_short_circuits doc :
  lacks_attestation doc = true ->
  validate_attestation doc = Ok [MissingTopLevel].
Proof.
  unfold lacks_attestation, validate_attestation.
  destruct doc as [| | | | s | l | d]; cbn [py_in bind]; try discriminate.
  - intros Hs. by rewrite Hs.
  - intros Hl. by rewrite Hl.
  - destruct (d !! "attestation"); [discriminate | done].
Qed.

Lemma C3_witness :
  lacks_attestation no_attestation = true
  /\ validate_attestation no_attestation = Ok [MissingTopLevel].
Proof.
  split; [vm_compute; reflexivity|].
  apply (C3_missing_attestation_short_circuits no_attestation).
  vm_compute; reflexivity.
Defined.

(** C3 as stated fails for a document that is no container: [null] makes
    the membership test raise instead of yielding one error. *)
Lemma C3_counterexample :
  validate_attestation JNull = Raise TypeError.
Proof. reflexivity. Qed.

(** ** Which field the appended errors are about *)

Lemma errors_about_app field es1 es2 :
  errors_about field (es1 ++ es2) = errors_about field es1 ++ errors_about field es2.
Proof. apply filter_app. Qed.

Lemma errors_about_owner owner field es :
  Forall (fun e => error_field e = owner) es ->
  errors_about field es = keep owner field es.
Proof.
  unfold keep, errors_about. intros Hes.
  destruct (String.eqb_spec owner field) as [<-|Hne].
  - induction Hes as [|e es He Hes IH]; [done|].
    rewrite filter_cons_True by done. by rewrite IH.
  - induction Hes as [|e es He Hes IH]; [done|].
    rewrite filter_cons_False by congruence. done.
Qed.

Lemma field_errors_owner field td v :
  Forall (fun e => error_field e = field) (field_errors (field, td) v).
Proof.
  destruct td as [t description]. unfold field_errors.
  destruct v as [value|]; [destruct (isinstance value t)|]; repeat constructor.
Qed.

Lemma entry_of_fresh {A} field (table : list (string * A)) :
  field ∉ table.*1 -> entry_of field table = None.
Proof.
  induction table as [|[name a] rest IH]; [done|].
  cbn [fmap list_fmap fst entry_of]. intros [Hne Hrest]%not_elem_of_cons.
  rewrite bool_decide_eq_false_2 by congruence. by apply IH.
Qed.

Lemma errors_about_table field (m : gmap string json) table :
  NoDup table.*1 ->
  errors_about field (flat_map (fun entry => field_errors entry (m !! entry.1)) table)
  = match entry_of field table with
    | Some td => field_errors (field, td) (m !! field)
    | None => []
    end.
Proof.
  induction table as [|[name td] rest IH]; [done|].
  cbn [fmap list_fmap fst flat_map entry_of]. intros [Hfresh Hrest]%NoDup_cons.
  rewrite errors_about_app, (errors_about_owner name) by apply field_errors_owner.
  rewrite (IH Hrest). unfold keep.
  destruct (String.eqb_spec name field) as [->|Hne].
  - rewrite bool_decide_eq_true_2 by done.
    rewrite (entry_of_fresh field rest) by done. by rewrite app_nil_r.
  - by rewrite bool_decide_eq_false_2 by done.
Qed.

Lemma NoDup_required_fields : NoDup required_fields.*1.
Proof. apply (bool_decide_unpack _). vm_compute. exact I. Qed.

Lemma errors_about_required field (m : gmap string json) :
  errors_about field (required_errors m) = required_about field m.
Proof. apply errors_about_table, NoDup_required_fields. Qed.

Lemma check_member_owner parent member (obj : gmap string json) es :
  check_member parent member obj [] = Ok es ->
  Forall (fun e => error_field e = parent) es.
Proof.
  unfold check_member. destruct (obj !! member) as [v|];
    [|intros [= <-]; repeat constructor].
  destruct v; simpl; try done; try (intros [= <-]; repeat constructor).
  destruct (negb (length l =? 32)%nat); intros [= <-]; repeat constructor.
Qed.

Lemma pair_errors_owner parent first second v es :
  pair_errors parent first second v = Ok es ->
  Forall (fun e => error_field e = parent) es.
Proof.
  unfold pair_errors. destruct v as [[]|]; try (intros [= <-]; constructor).
  destruct (check_member parent first m []) as [e1|x] eqn:H1; simpl; [|done].
  destruct (check_member parent second m []) as [e2|x] eqn:H2; simpl; [|done].
  intros [= <-]. apply Forall_app. eauto using check_member_owner.
Qed.

Lemma scan_report_owner i l :
  Forall (fun e => error_field e = "message_hash") (scan_report i l).
Proof.
  revert i. induction l as [|byte rest IH]; intros i; simpl; [constructor|].
  destruct (not_a_byte byte); [repeat constructor | apply IH].
Qed.

Lemma message_hash_errors_owner v :
  Forall (fun e => error_field e = "message_hash") (message_hash_errors v).
Proof.
  unfold message_hash_errors. destruct v as [[]|]; repeat constructor.
  destruct (negb _); [repeat constructor | apply scan_report_owner].
Qed.

Lemma account_errors_owner v :
  Forall (fun e => error_field e = "account_id_hash") (account_errors v).
Proof.
  unfold account_errors. destruct v as [[]|]; repeat constructor.
  - unfold check_hex_string. destruct (negb _), (fromhex _); repeat constructor.
  - destruct (negb _); repeat constructor.
Qed.

Lemma range_errors_owner bad e v :
  Forall (fun e' => error_field e' = error_field e) (range_errors bad e v).
Proof.
  unfold range_errors. destruct (v ≫= int_value) as [z|]; [|constructor].
  destruct (bad z); repeat constructor.
Qed.

(** The errors about one field, out of everything the validator collected
    on an attestation dict. *)
Lemma errors_about_object field (m : gmap string json) errs :
  object_errors m = Ok errs ->
  exists pk sg,
    pair_errors "custodian_pubkey" "x" "y" (m !! "custodian_pubkey") = Ok pk
    /\ pair_errors "signature" "r" "s" (m !! "signature") = Ok sg
    /\ errors_about field errs
       = required_about field m
         ++ keep "custodian_pubkey" field pk
         ++ keep "signature" field sg
         ++ keep "message_hash" field (message_hash_errors (m !! "message_hash"))
         ++ keep "account_id_hash" field (account_errors (m !! "account_id_hash"))
         ++ keep "balance_raw" field
              (range_errors negative BalanceNegative (m !! "balance_raw"))
         ++ keep "currency_code_int" field
              (range_errors not_u32 CurrencyNotU32 (m !! "currency_code_int"))
         ++ keep "custodian_id" field
              (range_errors not_u32 CustodianNotU32 (m !! "custodian_id")).
Proof.
  unfold object_errors.
  destruct (pair_errors "custodian_pubkey" _ _ _) as [pk|x] eqn:Hpk; simpl; [|done].
  destruct (pair_errors "signature" _ _ _) as [sg|x] eqn:Hsg; simpl; [|done].
  destruct (message_hash_formats _) as [[]|x]; simpl; [|done].
  intros [= <-]. exists pk, sg. split; [done|]. split; [done|].
  rewrite !errors_about_app, errors_about_required.
  rewrite (errors_about_owner "custodian_pubkey" field pk)
    by eauto using pair_errors_owner.
  rewrite (errors_about_owner "signature" field sg)
    by eauto using pair_errors_owner.
  rewrite (errors_about_owner "message_hash") by apply message_hash_errors_owner.
  rewrite (errors_about_owner "account_id_hash") by apply account_errors_owner.
  rewrite (errors_about_owner "balance_raw" field (range_errors negative _ _))
    by apply (range_errors_owner negative BalanceNegative).
  rewrite (errors_about_owner "currency_code_int" field (range_errors not_u32 CurrencyNotU32 _))
    by apply (range_errors_owner not_u32 CurrencyNotU32).
  rewrite (errors_about_owner "custodian_id" field (range_errors not_u32 CustodianNotU32 _))
    by apply (range_errors_owner not_u32 CustodianNotU32).
  done.
Qed.


Lemma keep_same field es : keep field field es = es.
Proof. unfold keep. by rewrite String.eqb_refl. Qed.

Lemma keep_other owner field es : owner <> field -> keep owner field es = [].
Proof. unfold keep. by intros ->%String.eqb_neq. Qed.

(** ** C6: the two checks of a string [account_id_hash] *)

Lemma check_hex_string_split aih acc :
  check_hex_string aih acc = acc ++ length_error aih ++ decode_error aih.
Proof.
  unfold check_hex_string, length_error, decode_error, decodes.
  destruct (negb _), (fromhex _); by rewrite ?app_nil_r, <-?app_assoc.
Qed.

Lemma required_about_typed field td (m : gmap string json) :
  entry_of field required_fields = Some td ->
  has_type (m !! field) td.1 = true ->
  required_about field m = [].
Proof.
  unfold required_about. intros -> Ht. destruct td as [t description].
  by apply field_errors_nil.
Qed.

(** C6.  When [account_id_hash] is a string, the length check and the
    hex-decode check are both made, each reporting on its own: the block
    appends the length error exactly when the remainder after the prefix is
    not 64 characters long, then the decode error exactly when
    [bytes.fromhex] fails, whatever the length check said.  These are all
    the errors about the field: two for a string of the wrong length that
    does not decode, one (the decode error) for a 64-character string that
    does not decode. *)
Theorem C6_length_and_decode_reported_independently
    (d m : gmap string json) s errs :
  d !! "attestation" = Some (JObj m) ->
  m !! "account_id_hash" = Some (JStr s) ->
  validate_attestation (JObj d) = Ok errs ->
  (forall acc,
     check_account_id_hash (JObj m) acc = Ok (acc ++ length_error s ++ decode_error s))
  /\ errors_about "account_id_hash" errs = length_error s ++ decode_error s
  /\ (String.length (strip_hex_prefix s) <> 64%nat ->
      decodes (strip_hex_prefix s) = false ->
      errors_about "account_id_hash" errs
      = [AccountHexLength (String.length (strip_hex_prefix s)); AccountNotHex s])
  /\ (String.length (strip_hex_prefix s) = 64%nat ->
      decodes (strip_hex_prefix s) = false ->
      errors_about "account_id_hash" errs = [AccountNotHex s]).
Proof.
  intros Hatt Hs Hv.
  assert (errors_about "account_id_hash" errs = length_error s ++ decode_error s) as Habout.
  { rewrite (validate_object d m Hatt) in Hv.
    destruct (errors_about_object "account_id_hash" m errs Hv) as (pk & sg & _ & _ & ->).
    rewrite (required_about_typed _ (TStr, "32-byte hex or array"))
      by (done || by rewrite Hs).
    rewrite keep_same, !keep_other by done.
    rewrite Hs. cbn [account_errors]. rewrite check_hex_string_split.
    by rewrite !app_nil_l, app_nil_r. }
  split; [|split; [done|split]].
  - intros acc. unfold check_account_id_hash. cbn [py_in py_getitem bind].
    rewrite Hs. cbn [bind]. by rewrite check_hex_string_split.
  - intros Hlen Hdec. rewrite Habout. unfold length_error, decode_error.
    apply Nat.eqb_neq in Hlen. by rewrite Hlen, Hdec.
  - intros Hlen Hdec. rewrite Habout. unfold length_error, decode_error.
    apply Nat.eqb_eq in Hlen. by rewrite Hlen, Hdec.
Qed.

Lemma C6_witness :
  (forall acc,
     check_account_id_hash (JObj short_account) acc
     = Ok (acc ++ length_error "zz" ++ decode_error "zz"))
  /\ errors_about "account_id_hash" [AccountHexLength 2; AccountNotHex "zz"]
     = length_error "zz" ++ decode_error "zz"
  /\ (String.length (strip_hex_prefix "zz") <> 64%nat ->
      decodes (strip_hex_prefix "zz") = false ->
      errors_about "account_id_hash" [AccountHexLength 2; AccountNotHex "zz"]
      = [AccountHexLength (String.length (strip_hex_prefix "zz")); AccountNotHex "zz"])
  /\ (String.length (strip_hex_prefix "zz") = 64%nat ->
      decodes (strip_hex_prefix "zz") = false ->
      errors_about "account_id_hash" [AccountHexLength 2; AccountNotHex "zz"]
      = [AccountNotHex "zz"]).
Proof.
  apply (C6_length_and_decode_reported_independently
           {[ "attestation" := JObj short_account ]} short_account "zz"
           [AccountHexLength 2; AccountNotHex "zz"]);
    vm_compute; reflexivity.
Defined.

(** ** C8: the scan of [message_hash] *)




(** ** C9: the numeric ranges *)

Lemma elem_of_errors_about e errs :
  e ∈ errs <-> e ∈ errors_about (error_field e) errs.
Proof. unfold errors_about. rewrite list_elem_of_filter. tauto. Qed.

Lemma required_about_kind e field (m : gmap string json) :
  e ∈ required_about field m ->
  (exists f description, e = MissingRequired f description)
  \/ (exists f expected got, e = WrongType f expected got).
Proof.
  unfold required_about. destruct (entry_of field required_fields) as [[t description]|];
    [|by intros ?%elem_of_nil].
  unfold field_errors. destruct (m !! field) as [value|].
  - destruct (isinstance value t); [by intros ?%elem_of_nil|].
    intros ->%list_elem_of_singleton. right. eauto.
  - intros ->%list_elem_of_singleton. left. eauto.
Qed.

Lemma elem_of_range_errors bad e v :
  e ∈ range_errors bad e v <-> exists z, v ≫= int_value = Some z /\ bad z = true.
Proof.
  unfold range_errors. destruct (v ≫= int_value) as [z|].
  - destruct (bad z) eqn:Hbad.
    + split; [eauto | intros _; apply list_elem_of_singleton; done].
    + split; [by intros ?%elem_of_nil | by intros (? & [= <-] & ?); congruence].
  - split; [by intros ?%elem_of_nil | by intros (? & ? & _)].
Qed.

(** A range error is in the result exactly when its own range check
    appended it. *)
Lemma range_error_reported field bad e (m : gmap string json) errs pk sg :
  error_field e = field ->
  (forall f description, e <> MissingRequired f description) ->
  (forall f expected got, e <> WrongType f expected got) ->
  errors_about field errs
  = required_about field m
    ++ keep "custodian_pubkey" field pk
    ++ keep "signature" field sg
    ++ keep "message_hash" field (message_hash_errors (m !! "message_hash"))
    ++ keep "account_id_hash" field (account_errors (m !! "account_id_hash"))
    ++ keep "balance_raw" field
         (range_errors negative BalanceNegative (m !! "balance_raw"))
    ++ keep "currency_code_int" field
         (range_errors not_u32 CurrencyNotU32 (m !! "currency_code_int"))
    ++ keep "custodian_id" field
         (range_errors not_u32 CustodianNotU32 (m !! "custodian_id")) ->
  field ∈ ["balance_raw"; "currency_code_int"; "custodian_id"] ->
  keep field field (range_errors bad e (m !! field))
  = keep "balance_raw" field (range_errors negative BalanceNegative (m !! "balance_raw"))
    ++ keep "currency_code_int" field
         (range_errors not_u32 CurrencyNotU32 (m !! "currency_code_int"))
    ++ keep "custodian_id" field
         (range_errors not_u32 CustodianNotU32 (m !! "custodian_id")) ->
  (e ∈ errs <-> exists z, m !! field ≫= int_value = Some z /\ bad z = true).
Proof.
  intros Hfield Hmiss Hwrong Habout Hin Hown.
  rewrite elem_of_errors_about, Hfield, Habout, <-Hown, keep_same.
  rewrite !keep_other
    by (intros <-; repeat (apply elem_of_cons in Hin as [?|Hin]; [done|]);
        by apply elem_of_nil in Hin).
  rewrite !app_nil_l, elem_of_app, elem_of_range_errors.
  split; [|by right].
  intros [[(? & ? & ->)|(? & ? & ? & ->)]%required_about_kind|?]; [| |done].
  - exfalso. by eapply Hmiss.
  - exfalso. by eapply Hwrong.
Qed.

(** C9.  On an attestation dict, whenever the validator returns: the
    [balance_raw] error is in the list exactly when the field is present, is
    an int and is negative; the [currency_code_int] error and the
    [custodian_id] error exactly when the field is present, is an int and
    lies outside [0, 2^32-1].  A field that is absent or not an int has no
    value [z] here, hence no range error. *)
Theorem C9_range_errors (d m : gmap string json) errs :
  d !! "attestation" = Some (JObj m) ->
  validate_attestation (JObj d) = Ok errs ->
  (BalanceNegative ∈ errs
   <-> exists z, m !! "balance_raw" ≫= int_value = Some z /\ z < 0)
  /\ (CurrencyNotU32 ∈ errs
      <-> exists z, m !! "currency_code_int" ≫= int_value = Some z
                    /\ (z < 0 \/ 2 ^ 32 - 1 < z))
  /\ (CustodianNotU32 ∈ errs
      <-> exists z, m !! "custodian_id" ≫= int_value = Some z
                    /\ (z < 0 \/ 2 ^ 32 - 1 < z)).
Proof.
  intros Hatt Hv. rewrite (validate_object d m Hatt) in Hv.
  assert (forall z, not_u32 z = true <-> z < 0 \/ 2 ^ 32 - 1 < z) as Hu32.
  { intros z. unfold not_u32. change (2 ^ 32 - 1) with 4294967295.
    rewrite orb_true_iff, Z.ltb_lt, Z.gtb_gt. lia. }
  split; [|split].
  - destruct (errors_about_object "balance_raw" m errs Hv) as (pk & sg & _ & _ & Hab).
    rewrite (range_error_reported "balance_raw" negative BalanceNegative m errs pk sg).
    + unfold negative. by setoid_rewrite Z.ltb_lt.
    + done.
    + done.
    + done.
    + done.
    + by apply (bool_decide_unpack _).
    + rewrite keep_same, !keep_other by done. by rewrite app_nil_r.
  - destruct (errors_about_object "currency_code_int" m errs Hv)
      as (pk & sg & _ & _ & Hab).
    rewrite (range_error_reported "currency_code_int" not_u32 CurrencyNotU32 m errs pk sg).
    + by setoid_rewrite Hu32.
    + done.
    + done.
    + done.
    + done.
    + by apply (bool_decide_unpack _).
    + rewrite keep_same, !keep_other by done. by rewrite app_nil_r.
  - destruct (errors_about_object "custodian_id" m errs Hv) as (pk & sg & _ & _ & Hab).
    rewrite (range_error_reported "custodian_id" not_u32 CustodianNotU32 m errs pk sg).
    + by setoid_rewrite Hu32.
    + done.
    + done.
    + done.
    + done.
    + by apply (bool_decide_unpack _).
    + rewrite keep_same, !keep_other by done. done.
Qed.

Lemma C9_witness :
  (BalanceNegative ∈ [BalanceNegative]
   <-> exists z, negative_balance !! "balance_raw" ≫= int_value = Some z /\ z < 0)
  /\ (CurrencyNotU32 ∈ [BalanceNegative]
      <-> exists z, negative_balance !! "currency_code_int" ≫= int_value = Some z
                    /\ (z < 0 \/ 2 ^ 32 - 1 < z))
  /\ (CustodianNotU32 ∈ [BalanceNegative]
      <-> exists z, negative_balance !! "custodian_id" ≫= int_value = Some z
                    /\ (z < 0 \/ 2 ^ 32 - 1 < z)).
Proof.
  apply (C9_range_errors {[ "attestation" := JObj negative_balance ]}
           negative_balance [BalanceNegative]);
    vm_compute; reflexivity.
Defined.

(** ** C7: the required-field pass *)

(** C7.  On an attestation dict the required-field pass always returns, and
    what it says about a field depends on that field alone.  For a field of
    the table: removing it yields exactly one error about it (missing),
    giving it a value of the wrong type yields exactly one error about it
    (wrong type), and in both cases the errors about every other field are
    what they were. *)
Theorem C7_required_fields_checked_independently
    (m : gmap string json) field t description v other :
  entry_of field required_fields = Some (t, description) ->
  isinstance v t = false ->
  other <> field ->
  exists es es_removed es_mistyped,
    required_pass (JObj m) [] = Ok es
    /\ required_pass (JObj (delete field m)) [] = Ok es_removed
    /\ required_pass (JObj (<[field := v]> m)) [] = Ok es_mistyped
    /\ errors_about field es_removed = [MissingRequired field description]
    /\ errors_about field es_mistyped
       = [WrongType field (pytype_name t) (type_name v)]
    /\ errors_about other es_removed = errors_about other es
    /\ errors_about other es_mistyped = errors_about other es.
Proof.
  intros Hentry Htype Hother.
  exists (required_errors m), (required_errors (delete field m)),
    (required_errors (<[field := v]> m)).
  rewrite !required_pass_obj, !errors_about_required.
  unfold required_about. rewrite Hentry.
  rewrite lookup_delete_eq, lookup_insert_eq, lookup_delete_ne, lookup_insert_ne by done.
  cbn [field_errors]. rewrite Htype. done.
Qed.

Lemma C7_witness :
  exists es es_removed es_mistyped,
    required_pass (JObj valid_att) [] = Ok es
    /\ required_pass (JObj (delete "signature" valid_att)) [] = Ok es_removed
    /\ required_pass (JObj (<["signature" := JInt 3]> valid_att)) [] = Ok es_mistyped
    /\ errors_about "signature" es_removed
       = [MissingRequired "signature" "object with r, s"]
    /\ errors_about "signature" es_mistyped
       = [WrongType "signature" (pytype_name TDict) (type_name (JInt 3))]
    /\ errors_about "issued_at" es_removed = errors_about "issued_at" es
    /\ errors_about "issued_at" es_mistyped = errors_about "issued_at" es.
Proof.
  apply (C7_required_fields_checked_independently
           valid_att "signature" TDict "object with r, s" (JInt 3) "issued_at");
    [vm_compute; reflexivity | reflexivity | discriminate].
Defined.

(** ** C4: the elements of [x], [y], [r], [s] *)

Lemma member_array_insert (obj : gmap string json) member l i v k :
  obj !! member = Some (JList l) ->
  member_array (fun _ => true) (obj !! k) = true ->
  member_array (fun _ => true) (<[member := JList (<[i := v]> l)]> obj !! k) = true.
Proof.
  intros Hl Hk. destruct (decide (member = k)) as [<-|Hne].
  - rewrite lookup_insert_eq. rewrite Hl in Hk. cbn [member_array] in *.
    by rewrite length_insert.
  - by rewrite lookup_insert_ne.
Qed.

Lemma pair_field_insert (obj : gmap string json) first second member l i v :
  obj !! member = Some (JList l) ->
  pair_field (fun _ => true) (Some (JObj obj)) first second = true ->
  pair_field (fun _ => true)
    (Some (JObj (<[member := JList (<[i := v]> l)]> obj))) first second = true.
Proof.
  intros Hl. cbn [pair_field]. rewrite !andb_true_iff. intros [H1 H2].
  split; by apply member_array_insert.
Qed.

(** C4, as the source has it.  For every document identical to one the
    validator accepts except that one element of [custodian_pubkey.x] (or
    [custodian_pubkey.y], [signature.r], [signature.s]) is replaced by any
    value, be it an integer outside [0,255] or no integer at all, the
    validator still returns the empty list: only the length of these four
    arrays is checked, the element range applies to [message_hash] alone. *)
Theorem C4_member_elements_not_checked
    (d m obj : gmap string json) parent member l i v :
  (parent, member) ∈ member_paths ->
  d !! "attestation" = Some (JObj m) ->
  m !! parent = Some (JObj obj) ->
  obj !! member = Some (JList l) ->
  validate_attestation (JObj d) = Ok [] ->
  validate_attestation
    (JObj (<["attestation" :=
               JObj (<[parent := JObj (<[member := JList (<[i := v]> l)]> obj)]> m)]> d))
  = Ok [].
Proof.
  intros Hpath Hatt Hparent Hmember Hv.
  rewrite (validate_object d m Hatt), object_errors_nil in Hv.
  rewrite (validate_object _ _ (lookup_insert_eq _ _ _)), object_errors_nil.
  unfold attestation_ok in *. rewrite !andb_true_iff in *.
  destruct Hv as (((((((((H1 & H2) & H3) & H4) & H5) & H6) & H7) & H8) & H9) & H10).
  unfold member_paths in Hpath.
  repeat (apply elem_of_cons in Hpath as [[= -> ->]|Hpath];
          [rewrite lookup_insert_eq, !lookup_insert_ne by done;
           try rewrite Hparent in H8; try rewrite Hparent in H9;
           repeat split; try done; by apply pair_field_insert|]).
  by apply elem_of_nil in Hpath.
Qed.

Lemma C4_witness :
  validate_attestation
    (JObj (<["attestation" :=
               JObj (<["custodian_pubkey" :=
                         JObj (<["x" := JList (<[5%nat := JStr "not a byte"]> bytes32)]>
                                 (<["x" := JList bytes32]> (<["y" := JList bytes32]> ∅)))]>
                       valid_att)]>
            {[ "attestation" := JObj valid_att ]}))
  = Ok [].
Proof.
  apply (C4_member_elements_not_checked
           {[ "attestation" := JObj valid_att ]} valid_att
           (<["x" := JList bytes32]> (<["y" := JList bytes32]> ∅))
           "custodian_pubkey" "x" bytes32 5%nat (JStr "not a byte"));
    [by apply (bool_decide_unpack _) | vm_compute; reflexivity ..].
Defined.

(** C4 as stated fails: with 256 at index 5 of [custodian_pubkey.x], and
    everything else valid, the validator returns the empty list. *)
Lemma C4_counterexample :
  validate_attestation valid_document = Ok []
  /\ validate_attestation big_byte_in_x = Ok [].
Proof. split; vm_compute; reflexivity. Qed.

(** ** C10: booleans where integers are required *)

Lemma forallb_insert {A} (P : A -> bool) (l : list A) i x :
  forallb P l = true -> P x = true -> forallb P (<[i := x]> l) = true.
Proof.
  revert i. induction l as [|a l IH]; intros i Hl Hx; [done|].
  simpl in Hl. apply andb_true_iff in Hl as [Ha Hl].
  destruct i as [|i]; simpl.
  - by rewrite Hx, Hl.
  - by rewrite Ha, IH.
Qed.

Lemma is_byte_bool b : is_byte int_value (JBool b) = true.
Proof. by destruct b. Qed.

(** C10.  A JSON boolean passes wherever the validator asks for an int,
    [true] counting as 1 and [false] as 0: in a document the validator
    accepts, replacing any of the six integer fields, or any element of
    [message_hash], by [true] or [false] leaves the error list empty. *)
Theorem C10_booleans_pass_for_integers (d m : gmap string json) b :
  d !! "attestation" = Some (JObj m) ->
  validate_attestation (JObj d) = Ok [] ->
  isinstance (JBool b) TInt = true
  /\ int_value (JBool b) = Some (if b then 1 else 0)
  /\ (forall field,
        field ∈ int_fields ->
        validate_attestation
          (JObj (<["attestation" := JObj (<[field := JBool b]> m)]> d)) = Ok [])
  /\ (forall l i,
        m !! "message_hash" = Some (JList l) ->
        validate_attestation
          (JObj (<["attestation" :=
                     JObj (<["message_hash" := JList (<[i := JBool b]> l)]> m)]> d))
        = Ok []).
Proof.
  intros Hatt Hv.
  rewrite (validate_object d m Hatt), object_errors_nil in Hv.
  unfold attestation_ok in Hv. rewrite !andb_true_iff in Hv.
  destruct Hv as (((((((((H1 & H2) & H3) & H4) & H5) & H6) & H7) & H8) & H9) & H10).
  split; [done|]. split; [done|]. split.
  - intros field Hfield.
    rewrite (validate_object _ _ (lookup_insert_eq _ _ _)), object_errors_nil.
    unfold attestation_ok. rewrite !andb_true_iff.
    unfold int_fields in Hfield.
    repeat (apply elem_of_cons in Hfield as [->|Hfield];
            [rewrite lookup_insert_eq, !lookup_insert_ne by done;
             repeat split; try done; by destruct b|]).
    by apply elem_of_nil in Hfield.
  - intros l i Hl.
    rewrite (validate_object _ _ (lookup_insert_eq _ _ _)), object_errors_nil.
    unfold attestation_ok. rewrite !andb_true_iff.
    rewrite lookup_insert_eq, !lookup_insert_ne by done.
    repeat split; try done.
    rewrite Hl in H10. cbn [byte_array] in *. rewrite length_insert.
    apply andb_true_iff in H10 as [Hlen Hall]. rewrite Hlen.
    apply forallb_insert; [done | apply is_byte_bool].
Qed.

Lemma C10_witness :
  isinstance (JBool true) TInt = true
  /\ int_value (JBool true) = Some 1
  /\ (forall field,
        field ∈ int_fields ->
        validate_attestation
          (JObj (<["attestation" := JObj (<[field := JBool true]> valid_att)]>
                   {[ "attestation" := JObj valid_att ]})) = Ok [])
  /\ (forall l i,
        valid_att !! "message_hash" = Some (JList l) ->
        validate_attestation
          (JObj (<["attestation" :=
                     JObj (<["message_hash" := JList (<[i := JBool true]> l)]> valid_att)]>
                   {[ "attestation" := JObj valid_att ]}))
        = Ok []).
Proof.
  apply (C10_booleans_pass_for_integers
           {[ "attestation" := JObj valid_att ]} valid_att true);
    vm_compute; reflexivity.
Defined.

(** ** C5: the prefix of a string [account_id_hash] *)

(** C5 at the doubled prefix.  Line 95 chains two [removeprefix] calls, so a
    string carrying [0x] and then [0X] loses both: [0x0X] followed by 64
    hexadecimal characters (68 characters, of which one prefix stripped would
    leave 66) is accepted with no error, while the three forms with at most
    one prefix are accepted as they should be. *)
Theorem C5_doubled_prefix_accepted :
  strip_hex_prefix ("0x0X" +:+ hex64) = hex64
  /\ strip_one_prefix ("0x0X" +:+ hex64) = "0X" +:+ hex64
  /\ check_hex_string ("0x0X" +:+ hex64) [] = []
  /\ validate_attestation doubled_prefix = Ok []
  /\ check_hex_string hex64 [] = []
  /\ check_hex_string ("0x" +:+ hex64) [] = []
  /\ check_hex_string ("0X" +:+ hex64) [] = [].
Proof. repeat split; vm_compute; reflexivity. Qed.

(** ** The exception that does not escape

    Indexing always follows a successful membership test, so no [KeyError]
    leaves the validator. *)

Lemma raises_bind {A B} (r : result A) (k : A -> result B) e :
  bind r k = Raise e ->
  r = Raise e \/ exists a, r = Ok a /\ k a = Raise e.
Proof. destruct r as [a|x]; simpl; [eauto | intros [= ->]; eauto]. Qed.

Lemma py_in_raises key container e :
  py_in key container = Raise e -> e = TypeError.
Proof. destruct container; simpl; congruence. Qed.

Lemma py_len_raises v e : py_len v = Raise e -> e = TypeError.
Proof. destruct v; simpl; congruence. Qed.

Lemma py_getitem_raises container key e :
  py_in key container = Ok true -> py_getitem container key = Raise e ->
  e = TypeError.
Proof.
  destruct container; simpl; try congruence.
  destruct (m !! key); congruence.
Qed.

Lemma py_repr_S remaining v :
  py_repr (S remaining) v
  = match v with
    | JNull | JBool _ | JFloat _ | JStr _ => Ok tt
    | JInt z =>
        if 10 ^ int_max_str_digits <=? Z.abs z then Raise ValueError else Ok tt
    | JList l => each_text (py_repr remaining) l
    | JObj m => each_text (py_repr remaining) (map_to_list m).*2
    end.
Proof. reflexivity. Qed.

Lemma each_text_raises {A} (text_of : A -> result unit) (P : exn -> Prop) l e :
  (forall a e', text_of a = Raise e' -> P e') ->
  each_text text_of l = Raise e -> P e.
Proof.
  intros Hone. induction l as [|a rest IH]; [done|].
  cbn [each_text]. intros [H|(u & _ & H)]%raises_bind; eauto.
Qed.

(** [str] raises [ValueError] or [RecursionError], nothing else. *)
Lemma py_repr_raises remaining v e :
  py_repr remaining v = Raise e -> e = ValueError \/ e = RecursionError.
Proof.
  revert v e. induction remaining as [|remaining IH]; intros v e.
  - intros [= <-]. by right.
  - rewrite py_repr_S. destruct v; try done.
    + destruct (_ <=? _); [|done]. intros [= <-]. by left.
    + apply (each_text_raises _ (fun e => e = ValueError \/ e = RecursionError)).
      intros a. apply IH.
    + apply (each_text_raises _ (fun e => e = ValueError \/ e = RecursionError)).
      intros a. apply IH.
Qed.

Lemma scan_formats_raises l e :
  scan_formats l = Raise e -> e = ValueError \/ e = RecursionError.
Proof.
  induction l as [|byte rest IH]; [done|]. cbn [scan_formats].
  destruct (not_a_byte byte); [apply py_repr_raises | done].
Qed.

Lemma message_hash_formats_raises v e :
  message_hash_formats v = Raise e -> e = ValueError \/ e = RecursionError.
Proof.
  unfold message_hash_formats. destruct v as [[]|]; try done.
  destruct (length l =? 32)%nat; [apply scan_formats_raises | done].
Qed.

(** A guarded lookup, the shape every block starts with. *)
Lemma guarded_raises {B} key container (k : json -> result B) (skip : result B) e :
  (forall v, k v <> Raise KeyError) ->
  skip <> Raise KeyError ->
  (present <- py_in key container ;;
   if (present : bool) then v <- py_getitem container key ;; k v else skip) = Raise e ->
  e <> KeyError.
Proof.
  intros Hk Hskip [Hin|([] & Hin & H)]%raises_bind.
  - by apply py_in_raises in Hin as ->.
  - apply raises_bind in H as [H|(v & _ & H)].
    + by apply (py_getitem_raises _ _ _ Hin) in H as ->.
    + intros ->. by apply (Hk v).
  - intros ->. done.
Qed.

Lemma check_required_field_raises att errors entry e :
  check_required_field att errors entry = Raise e -> e <> KeyError.
Proof.
  destruct entry as [field [expected_type description]]. unfold check_required_field.
  intros [Hin|([] & Hin & H)]%raises_bind; cbn [negb] in *.
  - by apply py_in_raises in Hin as ->.
  - apply raises_bind in H as [H|(v & _ & H)].
    + by apply (py_getitem_raises _ _ _ Hin) in H as ->.
    + by destruct (negb _).
  - done.
Qed.

Lemma for_each_raises {A} (body : list error -> A -> result (list error)) items :
  (forall errors item e, body errors item = Raise e -> e <> KeyError) ->
  forall errors e, for_each body errors items = Raise e -> e <> KeyError.
Proof.
  intros Hbody. induction items as [|item rest IH]; intros errors e; [done|].
  rewrite for_each_cons. intros [H|(errors' & _ & H)]%raises_bind; eauto.
Qed.

Lemma check_member_raises parent member obj errors e :
  check_member parent member obj errors = Raise e -> e = TypeError.
Proof.
  unfold check_member. destruct (obj !! member) as [v|]; [|done].
  intros [H|(bad & _ & H)]%raises_bind.
  - destruct (negb _); [done|].
    apply raises_bind in H as [H|(n & _ & H)]; [by apply py_len_raises in H | done].
  - destruct bad; [|done].
    apply raises_bind in H as [H|(n & _ & H)]; [by apply py_len_raises in H | done].
Qed.

Lemma check_pair_raises parent first second att errors e :
  check_pair parent first second att errors = Raise e -> e <> KeyError.
Proof.
  apply guarded_raises; [|done]. intros v. destruct v; try done.
  intros [H|(errors' & _ & H)]%raises_bind; by apply check_member_raises in H.
Qed.

Lemma check_message_hash_raises att errors e :
  check_message_hash att errors = Raise e -> e <> KeyError.
Proof.
  apply guarded_raises; [|done]. intros v. destruct v; try done.
  destruct (negb _); [done|]. rewrite scan_bytes_split.
  intros [H|(u & _ & H)]%raises_bind; [|done].
  by apply scan_formats_raises in H as [?|?].
Qed.

Lemma check_account_id_hash_raises att errors e :
  check_account_id_hash att errors = Raise e -> e <> KeyError.
Proof.
  apply guarded_raises; [|done]. intros v. destruct v; try done.
  by destruct (negb _).
Qed.

Lemma check_range_raises field bad err att errors e :
  check_range field bad err att errors = Raise e -> e <> KeyError.
Proof.
  apply guarded_raises; [|done]. intros v.
  destruct (int_value v) as [z|]; [|done]. by destruct (bad z).
Qed.

(** Whatever value it is given, the validator never raises [KeyError]:
    every subscript [container[key]] is reached only after
    [key in container] held, on the dict it was tested on. *)
Theorem validate_never_raises_KeyError doc :
  validate_attestation doc <> Raise KeyError.
Proof.
  assert (forall e, validate_attestation doc = Raise e -> e <> KeyError) as H;
    [|intros Hk; by apply (H KeyError)].
  intros e. unfold validate_attestation.
  intros [Hin|([] & Hin & H)]%raises_bind; cbn [negb] in *.
  - by apply py_in_raises in Hin as ->.
  - apply raises_bind in H as [H|(att & _ & H)];
      [by apply (py_getitem_raises _ _ _ Hin) in H as ->|].
    apply raises_bind in H as [H|(e1 & _ & H)];
      [by apply (for_each_raises _ _ (check_required_field_raises att)) in H|].
    apply raises_bind in H as [H|(e2 & _ & H)]; [by apply check_pair_raises in H|].
    apply raises_bind in H as [H|(e3 & _ & H)]; [by apply check_pair_raises in H|].
    apply raises_bind in H as [H|(e4 & _ & H)]; [by apply check_message_hash_raises in H|].
    apply raises_bind in H as [H|(e5 & _ & H)];
      [by apply check_account_id_hash_raises in H|].
    apply raises_bind in H as [H|(e6 & _ & H)]; [by apply check_range_raises in H|].
    apply raises_bind in H as [H|(e7 & _ & H)]; [by apply check_range_raises in H|].
    apply raises_bind in H as [H|(e8 & _ & H)]; [by apply check_range_raises in H|].
    done.
  - done.
Qed.

(** ** The scenarios of section 8 *)

Example fromhex_plain : fromhex "00ff1A" = Some [0; 255; 26].
Proof. reflexivity. Qed.

Example fromhex_spaced : fromhex "00 ff  1A " = Some [0; 255; 26].
Proof. reflexivity. Qed.

Example fromhex_split_pair : fromhex "0 0" = None.
Proof. reflexivity. Qed.

Example fromhex_odd : fromhex "abc" = None.
Proof. reflexivity. Qed.

Example scenario_1 : validate_attestation valid_document = Ok [].
Proof. vm_compute. reflexivity. Qed.

Example scenario_2 : validate_attestation (JObj ∅) = Ok [MissingTopLevel].
Proof. vm_compute. reflexivity. Qed.

Example scenario_3 :
  validate_attestation (with_field "balance_raw" (JInt (-5))) = Ok [BalanceNegative].
Proof. vm_compute. reflexivity. Qed.

Example scenario_4 :
  validate_attestation
    (with_field "custodian_pubkey"
       (pair_obj "x" "y" (JList (replicate 10 (JInt 1))) (JList bytes32)))
  = Ok [MemberNot32 "custodian_pubkey" "x" 10].
Proof. vm_compute. reflexivity. Qed.

Example scenario_5 :
  validate_attestation
    (with_field "account_id_hash"
       (JStr "0xZZbbccddeeff00112233445566778899aabbccddeeff00112233445566778811"))
  = Ok [AccountNotHex "0xZZbbccddeeff00112233445566778899aabbccddeeff00112233445566778811"].
Proof. vm_compute. reflexivity. Qed.

(** What the validator reports on [malformed_att]. *)
Example malformed_reported :
  validate_attestation (document (JObj malformed_att))
  = Ok [ WrongType "balance_raw" "int" "str";
         MissingRequired "currency_code_int" "u32";
         WrongType "custodian_id" "int" "float";
         MissingRequired "attestation_id" "u64";
         MissingRequired "issued_at" "u64";
         MissingRequired "valid_until" "u64";
         WrongType "account_id_hash" "str" "NoneType";
         WrongType "signature" "dict" "list";
         WrongType "message_hash" "list" "dict";
         MemberNot32 "custodian_pubkey" "x" 10;
         MissingMember "custodian_pubkey" "y";
         MessageHashNot32 None;
         AccountBadType "NoneType" ].
Proof. vm_compute. reflexivity. Qed.

(** A member that is present but has no length makes the message of line
    59 raise, where the sibling message of line 83 guards its [len]. *)
Example member_without_length_raises :
  validate_attestation
    (with_field "custodian_pubkey" (pair_obj "x" "y" (JInt 5) (JList bytes32)))
  = Raise TypeError.
Proof. vm_compute. reflexivity. Qed.

(** An [account_id_hash] given as an array of 32 bytes, the second form the
    table's description names, is reported by the required-field pass. *)
Example account_array_rejected :
  validate_attestation (with_field "account_id_hash" (JList bytes32))
  = Ok [WrongType "account_id_hash" "str" "list"].
Proof. vm_compute. reflexivity. Qed.

(** ** When the validator raises on an attestation dict *)

Lemma check_member_crashes parent member (obj : gmap string json) errors :
  member_crashes obj member = true ->
  check_member parent member obj errors = Raise TypeError.
Proof.
  unfold member_crashes, check_member.
  destruct (obj !! member) as [v|]; [|done]. by destruct v.
Qed.

Lemma check_member_returns parent member (obj : gmap string json) :
  member_crashes obj member = false ->
  exists es, check_member parent member obj [] = Ok es.
Proof.
  unfold member_crashes, check_member.
  destruct (obj !! member) as [v|]; [|eauto].
  destruct v; try done; intros _; simpl; eauto.
  destruct (negb (length l =? 32)%nat); eauto.
Qed.

Lemma pair_errors_crashes parent first second v :
  pair_crashes v first second = true ->
  pair_errors parent first second v = Raise TypeError.
Proof.
  unfold pair_crashes, pair_errors. destruct v as [[]|]; try done.
  destruct (member_crashes m first) eqn:H1; simpl.
  - intros _. by rewrite check_member_crashes.
  - intros H2. destruct (check_member_returns parent first m H1) as [e1 ->].
    simpl. by rewrite check_member_crashes.
Qed.

Lemma pair_errors_returns parent first second v :
  pair_crashes v first second = false ->
  exists es, pair_errors parent first second v = Ok es.
Proof.
  unfold pair_crashes, pair_errors. destruct v as [[]|]; eauto.
  intros [H1 H2]%orb_false_iff.
  destruct (check_member_returns parent first m H1) as [e1 ->].
  destruct (check_member_returns parent second m H2) as [e2 ->].
  simpl. eauto.
Qed.

(** On a document whose attestation is a dict, the validator raises
    [TypeError] exactly when [custodian_pubkey] or [signature] is a dict
    holding, under one of its two member names, a value without a length
    ([None], a [bool] or a number): the message of lines 59, 64, 72 or 77
    then calls [len] on it.  Such a member is never reported as an error,
    and nothing else on such a document ends in a [TypeError]. *)
Theorem raises_TypeError_iff_member_without_length (d m : gmap string json) :
  d !! "attestation" = Some (JObj m) ->
  (validate_attestation (JObj d) = Raise TypeError
   <-> pair_crashes (m !! "custodian_pubkey") "x" "y"
       || pair_crashes (m !! "signature") "r" "s" = true).
Proof.
  intros Hatt. rewrite (validate_object d m Hatt). unfold object_errors.
  destruct (pair_crashes (m !! "custodian_pubkey") "x" "y") eqn:Hpk.
  - by rewrite (pair_errors_crashes "custodian_pubkey" _ _ _ Hpk).
  - destruct (pair_errors_returns "custodian_pubkey" _ _ _ Hpk) as [pk ->].
    destruct (pair_crashes (m !! "signature") "r" "s") eqn:Hsg.
    + by rewrite (pair_errors_crashes "signature" _ _ _ Hsg).
    + destruct (pair_errors_returns "signature" _ _ _ Hsg) as [sg ->].
      cbn [bind orb].
      destruct (message_hash_formats _) as [[]|x] eqn:Hmh; cbn [bind]; [done|].
      split; [|done]. intros [= ->].
      by apply message_hash_formats_raises in Hmh as [?|?].
Qed.

Lemma raises_TypeError_iff_member_without_length_witness :
  validate_attestation (JObj {[ "attestation" := JObj null_member_att ]})
  = Raise TypeError
  <-> pair_crashes (null_member_att !! "custodian_pubkey") "x" "y"
      || pair_crashes (null_member_att !! "signature") "r" "s" = true.
Proof.
  apply (raises_TypeError_iff_member_without_length
           {[ "attestation" := JObj null_member_att ]} null_member_att).
  vm_compute; reflexivity.
Defined.

(** ** Keys the validator does not know *)

Lemma required_errors_agree (m m' : gmap string json) :
  (forall field, field ∈ required_fields.*1 -> m !! field = m' !! field) ->
  required_errors m = required_errors m'.
Proof.
  unfold required_errors. generalize required_fields as table.
  induction table as [|[name td] rest IH]; intros Hagree; [done|].
  cbn [flat_map fst]. rewrite (Hagree name) by apply list_elem_of_here.
  rewrite IH; [done|]. intros field Hfield. apply Hagree.
  by apply list_elem_of_further.
Qed.

(** The validator reads the top-level key [attestation] and the ten keys of
    [required_fields], nothing else: two documents whose attestation dicts
    agree on these ten keys get the same result, whatever other keys either
    carries at the top level or inside the attestation. *)
Theorem unknown_keys_ignored (d d' m m' : gmap string json) :
  d !! "attestation" = Some (JObj m) ->
  d' !! "attestation" = Some (JObj m') ->
  (forall field, field ∈ required_fields.*1 -> m !! field = m' !! field) ->
  validate_attestation (JObj d) = validate_attestation (JObj d').
Proof.
  intros Hd Hd' Hagree.
  rewrite (validate_object d m Hd), (validate_object d' m' Hd').
  unfold object_errors. rewrite (required_errors_agree m m' Hagree).
  rewrite !(Hagree _) by (by apply (bool_decide_unpack _)).
  done.
Qed.

Lemma unknown_keys_ignored_witness :
  validate_attestation
    (JObj (<["comment" := JStr "draft"]> {[ "attestation" := JObj short_account ]}))
  = validate_attestation
      (JObj {[ "attestation" := JObj (<["x" := JNull]> short_account) ]}).
Proof.
  apply (unknown_keys_ignored _ _ short_account (<["x" := JNull]> short_account));
    [vm_compute; reflexivity | vm_compute; reflexivity |].
  intros field Hfield. rewrite lookup_insert_ne; [done|].
  intros <-. revert Hfield. apply (bool_decide_unpack _). vm_compute. exact I.
Defined.

(** ** Each field's errors depend on that field alone *)

Lemma required_about_agree field (m m' : gmap string json) :
  m !! field = m' !! field -> required_about field m = required_about field m'.
Proof. unfold required_about. by intros ->. Qed.

Lemma keep_agree owner field (g : option json -> list error)
    (m m' : gmap string json) :
  m !! field = m' !! field ->
  keep owner field (g (m !! owner)) = keep owner field (g (m' !! owner)).
Proof.
  intros Hagree. unfold keep.
  destruct (String.eqb_spec owner field) as [->|]; [by rewrite Hagree | done].
Qed.

Lemma keep_pair_agree owner first second field (m m' : gmap string json) pk pk' :
  m !! field = m' !! field ->
  pair_errors owner first second (m !! owner) = Ok pk ->
  pair_errors owner first second (m' !! owner) = Ok pk' ->
  keep owner field pk = keep owner field pk'.
Proof.
  intros Hagree Hpk Hpk'. unfold keep.
  destruct (String.eqb_spec owner field) as [->|]; [|done].
  rewrite Hagree in Hpk. congruence.
Qed.

(** What the validator reports about a field depends on the value of that
    field alone: two attestation dicts that agree on [field] get the same
    errors about it, in the same order, however the other fields differ. *)
Theorem errors_about_field_local (d d' m m' : gmap string json) field errs errs' :
  d !! "attestation" = Some (JObj m) ->
  d' !! "attestation" = Some (JObj m') ->
  m !! field = m' !! field ->
  validate_attestation (JObj d) = Ok errs ->
  validate_attestation (JObj d') = Ok errs' ->
  errors_about field errs = errors_about field errs'.
Proof.
  intros Hd Hd' Hagree Hv Hv'.
  rewrite (validate_object d m Hd) in Hv.
  rewrite (validate_object d' m' Hd') in Hv'.
  destruct (errors_about_object field m errs Hv) as (pk & sg & Hpk & Hsg & ->).
  destruct (errors_about_object field m' errs' Hv') as (pk' & sg' & Hpk' & Hsg' & ->).
  rewrite (required_about_agree field m m' Hagree).
  rewrite (keep_pair_agree "custodian_pubkey" "x" "y" field m m' pk pk' Hagree Hpk Hpk').
  rewrite (keep_pair_agree "signature" "r" "s" field m m' sg sg' Hagree Hsg Hsg').
  rewrite (keep_agree "message_hash" field message_hash_errors m m' Hagree).
  rewrite (keep_agree "account_id_hash" field account_errors m m' Hagree).
  rewrite (keep_agree "balance_raw" field
             (range_errors negative BalanceNegative) m m' Hagree).
  rewrite (keep_agree "currency_code_int" field
             (range_errors not_u32 CurrencyNotU32) m m' Hagree).
  rewrite (keep_agree "custodian_id" field
             (range_errors not_u32 CustodianNotU32) m m' Hagree).
  done.
Qed.

Lemma errors_about_field_local_witness :
  errors_about "account_id_hash"
    [WrongType "balance_raw" "int" "str"; MissingRequired "currency_code_int" "u32";
     WrongType "custodian_id" "int" "float"; MissingRequired "attestation_id" "u64";
     MissingRequired "issued_at" "u64"; MissingRequired "valid_until" "u64";
     WrongType "account_id_hash" "str" "NoneType"; WrongType "signature" "dict" "list";
     WrongType "message_hash" "list" "dict"; MemberNot32 "custodian_pubkey" "x" 10;
     MissingMember "custodian_pubkey" "y"; MessageHashNot32 None;
     AccountBadType "NoneType"]
  = errors_about "account_id_hash"
      [WrongType "account_id_hash" "str" "NoneType"; AccountBadType "NoneType"].
Proof.
  apply (errors_about_field_local
           {[ "attestation" := JObj malformed_att ]}
           {[ "attestation" := JObj (<["account_id_hash" := JNull]> valid_att) ]}
           malformed_att (<["account_id_hash" := JNull]> valid_att)
           "account_id_hash");
    vm_compute; reflexivity.
Defined.

(** ** An [account_id_hash] that is not a string *)

(** The format check of [account_id_hash] runs whether or not the type
    check of the required-field pass succeeded.  A value that is no string
    therefore gets the "expected str" error first and the verdict of the
    format check after it: for an array, a length error unless it has 32
    elements, so that an array of 32 bytes is still rejected by the type
    error alone; for anything else, the "hex string or byte array" error. *)
Theorem account_not_string_reported_twice (d m : gmap string json) aih errs :
  d !! "attestation" = Some (JObj m) ->
  m !! "account_id_hash" = Some aih ->
  isinstance aih TStr = false ->
  validate_attestation (JObj d) = Ok errs ->
  errors_about "account_id_hash" errs
  = WrongType "account_id_hash" "str" (type_name aih) :: non_string_verdict aih.
Proof.
  intros Hatt Haih Hstr Hv. rewrite (validate_object d m Hatt) in Hv.
  destruct (errors_about_object "account_id_hash" m errs Hv) as (pk & sg & _ & _ & ->).
  rewrite keep_same, !keep_other by done.
  unfold required_about.
  change (entry_of "account_id_hash" required_fields)
    with (Some (TStr, "32-byte hex or array")).
  rewrite Haih. cbn [field_errors]. rewrite Hstr. cbn [pytype_name].
  rewrite !app_nil_l, app_nil_r. by destruct aih.
Qed.

Lemma account_not_string_reported_twice_witness :
  errors_about "account_id_hash" [WrongType "account_id_hash" "str" "list"]
  = WrongType "account_id_hash" "str" (type_name (JList bytes32))
    :: non_string_verdict (JList bytes32).
Proof.
  apply (account_not_string_reported_twice
           {[ "attestation" := JObj (<["account_id_hash" := JList bytes32]> valid_att) ]}
           (<["account_id_hash" := JList bytes32]> valid_att));
    vm_compute; reflexivity.
Defined.

(** ** How many errors there can be *)

Lemma length_scan_report i l : (length (scan_report i l) <= 1)%nat.
Proof.
  revert i. induction l as [|byte rest IH]; intros i; simpl; [lia|].
  destruct (not_a_byte byte); [simpl; lia | apply IH].
Qed.

Lemma length_check_hex_string s : (length (check_hex_string s []) <= 2)%nat.
Proof.
  unfold check_hex_string. destruct (negb _), (fromhex _); simpl; lia.
Qed.

(** A numeric field gets a type error or a range error, never both. *)
Lemma length_numeric field description bad e v :
  (length (field_errors (field, (TInt, description)) v)
   + length (range_errors bad e v) <= 1)%nat.
Proof.
  unfold field_errors, range_errors.
  destruct v as [[| b | z | | | |]|]; simpl; try lia.
  - destruct (bad _); simpl; lia.
  - destruct (bad z); simpl; lia.
Qed.

Lemma length_plain field description v :
  (length (field_errors (field, (TInt, description)) v) <= 1)%nat.
Proof.
  unfold field_errors. destruct v as [value|]; [|simpl; lia].
  destruct (isinstance value TInt); simpl; lia.
Qed.

Lemma length_account description v :
  (length (field_errors ("account_id_hash", (TStr, description)) v)
   + length (account_errors v) <= 2)%nat.
Proof.
  unfold field_errors, account_errors.
  destruct v as [[| | | | s | l |]|]; simpl; try lia.
  - apply length_check_hex_string.
  - destruct (negb _); simpl; lia.
Qed.

Lemma length_check_member parent member (obj : gmap string json) es :
  check_member parent member obj [] = Ok es -> (length es <= 1)%nat.
Proof.
  unfold check_member. destruct (obj !! member) as [v|]; [|intros [= <-]; simpl; lia].
  destruct v; simpl; try done; try (intros [= <-]; simpl; lia).
  destruct (negb (length l =? 32)%nat); intros [= <-]; simpl; lia.
Qed.

Lemma length_pair parent first second description v es :
  pair_errors parent first second v = Ok es ->
  (length (field_errors (parent, (TDict, description)) v) + length es <= 2)%nat.
Proof.
  unfold field_errors, pair_errors.
  destruct v as [[]|]; try (intros [= <-]; simpl; lia).
  destruct (check_member parent first m []) as [e1|x] eqn:H1; simpl; [|done].
  destruct (check_member parent second m []) as [e2|x] eqn:H2; simpl; [|done].
  intros [= <-]. rewrite length_app.
  apply length_check_member in H1. apply length_check_member in H2. lia.
Qed.

Lemma length_message_hash description v :
  (length (field_errors ("message_hash", (TList, description)) v)
   + length (message_hash_errors v) <= 2)%nat.
Proof.
  unfold field_errors, message_hash_errors.
  destruct v as [[| | | | | l |]|]; simpl; try lia.
  destruct (negb _); simpl; [lia|]. pose proof (length_scan_report 0 l). lia.
Qed.

(** On a document whose attestation is a dict the validator never returns
    more than 14 errors: at most one for each of the six numeric fields (a
    type error and a range error exclude each other) and at most two for
    each of [account_id_hash], [custodian_pubkey], [signature] and
    [message_hash]. *)
Theorem at_most_fourteen_errors (d m : gmap string json) errs :
  d !! "attestation" = Some (JObj m) ->
  validate_attestation (JObj d) = Ok errs ->
  (length errs <= 14)%nat.
Proof.
  intros Hatt Hv. rewrite (validate_object d m Hatt) in Hv.
  unfold object_errors in Hv.
  destruct (pair_errors "custodian_pubkey" _ _ _) as [pk|x] eqn:Hpk; simpl in Hv; [|done].
  destruct (pair_errors "signature" _ _ _) as [sg|x] eqn:Hsg; simpl in Hv; [|done].
  destruct (message_hash_formats _) as [[]|x]; simpl in Hv; [|done].
  injection Hv as <-.
  unfold required_errors, required_fields. cbn [flat_map fst].
  rewrite !length_app. cbn [length].
  pose proof (length_numeric "balance_raw" "u64" negative BalanceNegative
                (m !! "balance_raw")).
  pose proof (length_numeric "currency_code_int" "u32" not_u32 CurrencyNotU32
                (m !! "currency_code_int")).
  pose proof (length_numeric "custodian_id" "u32" not_u32 CustodianNotU32
                (m !! "custodian_id")).
  pose proof (length_plain "attestation_id" "u64" (m !! "attestation_id")).
  pose proof (length_plain "issued_at" "u64" (m !! "issued_at")).
  pose proof (length_plain "valid_until" "u64" (m !! "valid_until")).
  pose proof (length_account "32-byte hex or array" (m !! "account_id_hash")).
  pose proof (length_pair _ _ _ "object with x, y" _ _ Hpk).
  pose proof (length_pair _ _ _ "object with r, s" _ _ Hsg).
  pose proof (length_message_hash "32-byte array" (m !! "message_hash")).
  lia.
Qed.

Lemma at_most_fourteen_errors_witness :
  (length
     [ MissingRequired "balance_raw" "u64"; MissingRequired "currency_code_int" "u32";
       MissingRequired "custodian_id" "u32"; MissingRequired "attestation_id" "u64";
       MissingRequired "issued_at" "u64"; MissingRequired "valid_until" "u64";
       WrongType "account_id_hash" "str" "NoneType";
       WrongType "message_hash" "list" "NoneType";
       MissingMember "custodian_pubkey" "x"; MissingMember "custodian_pubkey" "y";
       MissingMember "signature" "r"; MissingMember "signature" "s";
       MessageHashNot32 None; AccountBadType "NoneType" ] <= 14)%nat.
Proof.
  apply (at_most_fourteen_errors {[ "attestation" := JObj worst_att ]} worst_att);
    vm_compute; reflexivity.
Defined.

(** ** An attestation that is not a dict *)

Lemma py_in_sequence att field :
  is_sequence att = true -> py_in field att = Ok (mentions att field).
Proof. by destruct att. Qed.

Lemma py_getitem_sequence att field :
  is_sequence att = true -> py_getitem att field = Raise TypeError.
Proof. by destruct att. Qed.

Lemma for_each_sequence att table acc :
  is_sequence att = true ->
  for_each (check_required_field att) acc table
  = if existsb (fun entry => mentions att entry.1) table then Raise TypeError
    else Ok (acc ++ map (fun entry : string * (pytype * string) =>
                           MissingRequired entry.1 entry.2.2) table).
Proof.
  intros Hseq. revert acc.
  induction table as [|[field [t description]] rest IH]; intros acc.
  - simpl. by rewrite app_nil_r.
  - rewrite for_each_cons. unfold check_required_field at 1.
    rewrite (py_in_sequence att field Hseq). cbn [bind existsb fst snd map].
    destruct (mentions att field); cbn [negb orb].
    + by rewrite (py_getitem_sequence att field Hseq).
    + cbn [bind]. rewrite IH. destruct (existsb _ rest); [done|].
      by rewrite <-app_assoc.
Qed.

Lemma check_pair_absent parent first second att acc :
  is_sequence att = true -> mentions att parent = false ->
  check_pair parent first second att acc = Ok acc.
Proof. intros Hseq Hno. unfold check_pair. by rewrite py_in_sequence, Hno. Qed.

Lemma check_message_hash_absent att acc :
  is_sequence att = true -> mentions att "message_hash" = false ->
  check_message_hash att acc = Ok acc.
Proof. intros Hseq Hno. unfold check_message_hash. by rewrite py_in_sequence, Hno. Qed.

Lemma check_account_id_hash_absent att acc :
  is_sequence att = true -> mentions att "account_id_hash" = false ->
  check_account_id_hash att acc = Ok acc.
Proof. intros Hseq Hno. unfold check_account_id_hash. by rewrite py_in_sequence, Hno. Qed.

Lemma check_range_absent field bad e att acc :
  is_sequence att = true -> mentions att field = false ->
  check_range field bad e att acc = Ok acc.
Proof. intros Hseq Hno. unfold check_range. by rewrite py_in_sequence, Hno. Qed.

Lemma validate_not_a_dict (d : gmap string json) att :
  d !! "attestation" = Some att ->
  (forall m, att <> JObj m) ->
  validate_attestation (JObj d)
  = if is_sequence att
       && negb (existsb (fun entry => mentions att entry.1) required_fields)
    then Ok all_missing else Raise TypeError.
Proof.
  intros Hatt Hno.
  destruct (is_sequence att) eqn:Hseq; cbn [andb].
  - unfold validate_attestation. cbn [py_in py_getitem bind]. rewrite Hatt.
    cbn [negb bind]. unfold required_pass.
    rewrite (for_each_sequence att required_fields [] Hseq).
    destruct (existsb _ required_fields) eqn:Hex; cbn [negb bind]; [done|].
    unfold required_fields in Hex. cbn [existsb fst] in Hex.
    repeat (apply orb_false_iff in Hex as [? Hex]).
    repeat (first [ rewrite check_pair_absent by done
                  | rewrite check_message_hash_absent by done
                  | rewrite check_account_id_hash_absent by done
                  | rewrite check_range_absent by done ];
            cbn [bind]).
    done.
  - rewrite (validate_blocks d att Hatt). unfold block_errors, required_pass.
    unfold required_fields. rewrite for_each_cons. unfold check_required_field.
    destruct att; try done. by destruct (Hno m).
Qed.

(** When the value under [attestation] is not a dict, nothing is checked
    for real.  A list or string in which none of the ten field names occurs
    (as an element, as a substring) yields the ten "missing field" errors
    and nothing else; in every other case, a list or string that contains
    one of the names, [None], a [bool] or a number, the validator raises a
    [TypeError]. *)
Theorem attestation_not_a_dict (d : gmap string json) att :
  d !! "attestation" = Some att ->
  (forall m, att <> JObj m) ->
  validate_attestation (JObj d)
  = if is_sequence att
       && negb (existsb (fun entry => mentions att entry.1) required_fields)
    then Ok all_missing else Raise TypeError.
Proof. apply validate_not_a_dict. Qed.

Lemma attestation_not_a_dict_witness :
  validate_attestation (JObj {[ "attestation" := JList [JStr "signatures"; JInt 3] ]})
  = if is_sequence (JList [JStr "signatures"; JInt 3])
       && negb (existsb (fun entry => mentions (JList [JStr "signatures"; JInt 3]) entry.1)
                  required_fields)
    then Ok all_missing else Raise TypeError.
Proof.
  apply (attestation_not_a_dict
           {[ "attestation" := JList [JStr "signatures"; JInt 3] ]}
           (JList [JStr "signatures"; JInt 3]));
    [vm_compute; reflexivity | discriminate].
Defined.

(** ** The top-level error stands alone *)

Lemma all_missing_no_top_level : MissingTopLevel ∉ all_missing.
Proof.
  unfold all_missing. by intros (entry & Heq & _)%list_elem_of_fmap.
Qed.

Lemma no_top_level_in_object (m : gmap string json) errs :
  object_errors m = Ok errs -> MissingTopLevel ∉ errs.
Proof.
  intros Hv Hin. apply elem_of_errors_about in Hin. cbn [error_field] in Hin.
  destruct (errors_about_object "attestation" m errs Hv) as (pk & sg & _ & _ & Hab).
  rewrite Hab, !keep_other in Hin by done.
  unfold required_about in Hin.
  change (entry_of "attestation" required_fields)
    with (@None (pytype * string)) in Hin.
  by apply elem_of_nil in Hin.
Qed.

(** The top-level error is never mixed with others: a returned list that
    contains "Missing top-level 'attestation' field" consists of that one
    error, and the document then has no [attestation] key. *)
Theorem top_level_error_stands_alone doc errs :
  validate_attestation doc = Ok errs ->
  MissingTopLevel ∈ errs ->
  errs = [MissingTopLevel] /\ lacks_attestation doc = true.
Proof.
  intros Hv Hin.
  destruct (lacks_attestation doc) eqn:Hlack.
  - rewrite (validate_lacking doc Hlack) in Hv. by injection Hv as <-.
  - exfalso. destruct doc as [| | | | s | l | d]; try done.
    + unfold validate_attestation in Hv. cbn [py_in bind] in Hv.
      cbn [lacks_attestation] in Hlack. apply negb_false_iff in Hlack.
      by rewrite Hlack in Hv.
    + unfold validate_attestation in Hv. cbn [py_in bind] in Hv.
      cbn [lacks_attestation] in Hlack. apply negb_false_iff in Hlack.
      by rewrite Hlack in Hv.
    + cbn [lacks_attestation] in Hlack.
      destruct (d !! "attestation") as [att|] eqn:Hatt; [|done].
      destruct att as [| | | | | |m];
        try (rewrite (validate_not_a_dict d _ Hatt) in Hv by done;
             destruct (_ && _); [|done]; injection Hv as <-;
             by apply all_missing_no_top_level in Hin).
      rewrite (validate_object d m Hatt) in Hv.
      by apply (no_top_level_in_object m errs Hv).
Qed.

Lemma top_level_error_stands_alone_witness :
  [MissingTopLevel] = [MissingTopLevel] /\ lacks_attestation no_attestation = true.
Proof.
  apply (top_level_error_stands_alone no_attestation [MissingTopLevel]);
    [vm_compute; reflexivity | apply list_elem_of_here].
Defined.

(** ** What [bytes.fromhex] accepts *)

Lemma hex_digit_range c v : hex_digit c = Some v -> 0 <= v < 16.
Proof.
  unfold hex_digit. set (n := Z.of_nat (nat_of_ascii c)).
  destruct (Z.leb_spec 48 n), (Z.leb_spec n 57), (Z.leb_spec 97 n),
    (Z.leb_spec n 102), (Z.leb_spec 65 n), (Z.leb_spec n 70);
    cbn [andb]; intros [= <-]; lia.
Qed.

Lemma hex_digit_not_space c v : hex_digit c = Some v -> isspace c = false.
Proof.
  unfold hex_digit, isspace. set (k := nat_of_ascii c). set (n := Z.of_nat k).
  assert (n = Z.of_nat k) as Hn by done. clearbody n k.
  destruct (Z.leb_spec 48 n), (Z.leb_spec n 57), (Z.leb_spec 97 n),
    (Z.leb_spec n 102), (Z.leb_spec 65 n), (Z.leb_spec n 70);
    cbn [andb]; try discriminate; intros _;
    destruct (Nat.eqb_spec k 32), (Nat.leb_spec 9 k), (Nat.leb_spec k 13);
    cbn [andb orb]; try done; lia.
Qed.

(** Every character of a decoded string is a blank or half of a pair. *)
Lemma fromhex_accounts_for_every_character n s bs :
  (String.length s <= n)%nat ->
  fromhex s = Some bs ->
  (String.length s = 2 * length bs + count_space s)%nat
  /\ Forall (fun b => 0 <= b <= 255) bs.
Proof.
  revert s bs. induction n as [|n IH]; intros s bs Hlen.
  - destruct s; [|simpl in Hlen; lia]. intros [= <-]. by split.
  - destruct s as [|c rest]; [intros [= <-]; by split|].
    cbn [fromhex count_space String.length] in *.
    destruct (isspace c) eqn:Hsp.
    + intros Hrest. destruct (IH rest bs ltac:(lia) Hrest) as [Hl Hb].
      split; [lia | done].
    + destruct (hex_digit c) as [top|] eqn:Htop; [|done].
      destruct rest as [|c' rest']; [done|].
      destruct (hex_digit c') as [bot|] eqn:Hbot; [|done].
      destruct (fromhex rest') as [bs'|] eqn:Hrest; [|done].
      intros [= <-]. cbn [String.length] in Hlen.
      destruct (IH rest' bs' ltac:(lia) Hrest) as [Hl Hb].
      cbn [count_space String.length length].
      rewrite (hex_digit_not_space c' bot Hbot). split; [lia|].
      constructor; [|done].
      apply hex_digit_range in Htop. apply hex_digit_range in Hbot. lia.
Qed.

(** An [account_id_hash] string that passes the format check need not hold
    32 bytes: its remainder has 64 characters, each of them a blank or half
    of a pair of hexadecimal digits, so it decodes to 32 bytes less one for
    every two blanks (and every byte decoded lies in [0,255]). *)
Theorem accepted_hex_counts_characters aih :
  check_hex_string aih [] = [] ->
  exists bs,
    fromhex (strip_hex_prefix aih) = Some bs
    /\ (2 * length bs + count_space (strip_hex_prefix aih) = 64)%nat
    /\ Forall (fun b => 0 <= b <= 255) bs.
Proof.
  intros [Hlen Hdec]%check_hex_string_nil. unfold decodes in Hdec.
  destruct (fromhex (strip_hex_prefix aih)) as [bs|] eqn:Hbs; [|done].
  exists bs. split; [done|].
  destruct (fromhex_accounts_for_every_character _ _ bs (Nat.le_refl _) Hbs) as [Hl Hb].
  split; [lia | done].
Qed.

Lemma accepted_hex_counts_characters_witness :
  exists bs,
    fromhex (strip_hex_prefix ("0x" +:+ spaced_hex)) = Some bs
    /\ (2 * length bs + count_space (strip_hex_prefix ("0x" +:+ spaced_hex)) = 64)%nat
    /\ Forall (fun b => 0 <= b <= 255) bs.
Proof.
  apply (accepted_hex_counts_characters ("0x" +:+ spaced_hex)).
  vm_compute; reflexivity.
Defined.

Lemma all_hex_decodes n s :
  (String.length s <= n)%nat ->
  all_hex s = true -> Nat.Even (String.length s) -> decodes s = true.
Proof.
  unfold decodes. revert s. induction n as [|n IH]; intros s Hlen.
  - destruct s; [done | simpl in Hlen; lia].
  - destruct s as [|c [|c' rest]]; [done | |].
    + intros _ [k Hk]. simpl in Hk. lia.
    + cbn [all_hex String.length] in *. unfold is_hex_digit.
      destruct (hex_digit c) as [top|] eqn:Htop; [|done].
      destruct (hex_digit c') as [bot|] eqn:Hbot; [|done].
      cbn [andb]. intros Hall Heven.
      cbn [fromhex]. rewrite (hex_digit_not_space c top Htop), Htop, Hbot.
      assert (Nat.Even (String.length rest)) as Hrest.
      { destruct Heven as [k Hk]. exists (k - 1)%nat. lia. }
      specialize (IH rest ltac:(lia) Hall Hrest).
      by destruct (fromhex rest).
Qed.

Lemma strip_prefix_hex_second a b rest marker :
  is_hex_digit b = true -> is_hex_digit marker = false ->
  strip_prefix (String "0" (String marker "")) (String a (String b rest)) = None.
Proof.
  intros Hb Hmarker. cbn [strip_prefix].
  destruct (Ascii.eqb "0" a); [|done].
  destruct (Ascii.eqb_spec marker b) as [->|]; [congruence | done].
Qed.

Lemma digits_carry_no_prefix h :
  all_hex h = true -> (2 <= String.length h)%nat ->
  strip_prefix "0x" h = None /\ strip_prefix "0X" h = None.
Proof.
  destruct h as [|a [|b rest]]; [simpl; lia | simpl; lia |].
  cbn [all_hex]. intros [_ [Hb _]%andb_true_iff]%andb_true_iff _.
  split; by apply strip_prefix_hex_second.
Qed.

(** Every string of 64 hexadecimal digits is accepted as [account_id_hash],
    bare, after [0x] and after [0X]: the block appends nothing in each of
    the three spellings. *)
Theorem hex_digits_accepted (m : gmap string json) h prefix acc :
  all_hex h = true ->
  String.length h = 64%nat ->
  prefix ∈ [""; "0x"; "0X"] ->
  m !! "account_id_hash" = Some (JStr (prefix +:+ h)) ->
  check_account_id_hash (JObj m) acc = Ok acc.
Proof.
  intros Hall Hlen Hprefix Hm.
  unfold check_account_id_hash. cbn [py_in py_getitem bind]. rewrite Hm.
  cbn [bind]. f_equal. rewrite check_hex_string_app.
  assert (strip_hex_prefix (prefix +:+ h) = h) as Hstrip.
  { destruct (digits_carry_no_prefix h Hall ltac:(lia)) as [Hx HX].
    unfold strip_hex_prefix, removeprefix.
    repeat (apply elem_of_cons in Hprefix as [->|Hprefix]);
      [| | | by apply elem_of_nil in Hprefix].
    - change ("" +:+ h) with h. rewrite Hx. cbv beta iota. by rewrite HX.
    - change (strip_prefix "0x" ("0x" +:+ h)) with (Some h).
      cbv beta iota. by rewrite HX.
    - change (strip_prefix "0x" ("0X" +:+ h)) with (@None string).
      cbv beta iota.
      change (strip_prefix "0X" ("0X" +:+ h)) with (Some h).
      done. }
  assert (check_hex_string (prefix +:+ h) [] = []) as ->; [|by rewrite app_nil_r].
  apply check_hex_string_nil. rewrite Hstrip. split; [done|].
  apply (all_hex_decodes 64); [lia | done |]. rewrite Hlen. by exists 32%nat.
Qed.

Lemma hex_digits_accepted_witness :
  check_account_id_hash
    (JObj (<["account_id_hash" := JStr ("0X" +:+ hex64)]> valid_att))
    [BalanceNegative]
  = Ok [BalanceNegative].
Proof.
  apply (hex_digits_accepted
           (<["account_id_hash" := JStr ("0X" +:+ hex64)]> valid_att) hex64 "0X");
    [vm_compute; reflexivity | vm_compute; reflexivity
    | by apply (bool_decide_unpack _) | vm_compute; reflexivity].
Defined.

(** ** What line 95 takes off *)

Lemma strip_prefix_inv p s rest :
  strip_prefix p s = Some rest ->
  s = p +:+ rest /\ String.length s = (String.length p + String.length rest)%nat.
Proof.
  revert s. induction p as [|a p IH]; intros s.
  - intros [= <-]. done.
  - destruct s as [|b s]; [done|].
    change (strip_prefix (String a p) (String b s))
      with (if Ascii.eqb a b then strip_prefix p s else None).
    destruct (Ascii.eqb_spec a b) as [<-|]; [|done].
    intros [-> Hlen]%IH. split; [done|]. cbn [String.length String.app] in *.
    by rewrite Hlen.
Qed.

Lemma removeprefix_cases p s :
  (strip_prefix p s = None /\ removeprefix p s = s)
  \/ (s = p +:+ removeprefix p s
      /\ String.length s = (String.length p + String.length (removeprefix p s))%nat).
Proof.
  unfold removeprefix. destruct (strip_prefix p s) as [rest|] eqn:H; [|by left].
  right. by apply strip_prefix_inv.
Qed.

(** Line 95 takes off one of four prefixes, nothing, [0x], [0X] or [0x0X]
    (the doubled one because the second call runs on the result of the
    first), and the rest of the string is what it returns; it leaves the
    string as it is exactly when the string starts with neither [0x] nor
    [0X]. *)
Theorem strip_hex_prefix_takes_a_known_prefix s :
  (exists p, p ∈ strippable /\ s = p +:+ strip_hex_prefix s)
  /\ (strip_hex_prefix s = s
      <-> strip_prefix "0x" s = None /\ strip_prefix "0X" s = None).
Proof.
  unfold strip_hex_prefix, strippable.
  destruct (removeprefix_cases "0x" s) as [[Hx Hsx]|[Hsx Hlx]];
    destruct (removeprefix_cases "0X" (removeprefix "0x" s)) as [[HX HsX]|[HsX HlX]].
  - rewrite HsX, Hsx. rewrite Hsx in HX. split.
    + exists "". split; [by apply (bool_decide_unpack _) | done].
    + done.
  - rewrite Hsx in HsX, HlX |- *. split.
    + exists "0X". split; [by apply (bool_decide_unpack _) | done].
    + split.
      * intros Heq. rewrite Heq in HlX. cbn [String.length] in HlX. lia.
      * intros [_ HX]. unfold removeprefix. by rewrite HX.
  - rewrite HsX. split.
    + exists "0x". split; [by apply (bool_decide_unpack _) | done].
    + split.
      * intros Heq. rewrite Heq in Hlx. cbn [String.length] in Hlx. lia.
      * intros [Hx _]. unfold removeprefix. by rewrite Hx.
  - split.
    + exists "0x0X". split; [by apply (bool_decide_unpack _)|].
      rewrite Hsx at 1. rewrite HsX at 1. done.
    + split.
      * intros Heq. rewrite Heq in HlX. cbn [String.length] in *. lia.
      * intros [Hx _]. exfalso. unfold removeprefix in Hlx. rewrite Hx in Hlx.
        cbn [String.length] in Hlx. lia.
Qed.

(** ** A field without errors is a well-formed field *)

Lemma required_about_nil field td (m : gmap string json) :
  entry_of field required_fields = Some td ->
  (required_about field m = [] <-> has_type (m !! field) td.1 = true).
Proof.
  unfold required_about. intros ->. destruct td as [t description].
  apply field_errors_nil.
Qed.

Ltac project_field field m errs Hv :=
  let pk := fresh "pk" in
  let sg := fresh "sg" in
  let Hpk := fresh "Hpk" in
  let Hsg := fresh "Hsg" in
  destruct (errors_about_object field m errs Hv) as (pk & sg & Hpk & Hsg & ->);
  rewrite ?keep_same, ?keep_other by done;
  rewrite ?app_nil_l, ?app_nil_r.

(** The verdict on each field can be read off the returned list, whatever
    the state of the other fields: the list holds no error about a field
    exactly when that field, taken alone, meets the schema as the validator
    enforces it (present, of the required type, in range, of the right
    length, decodable). *)
Theorem field_clean_iff_well_formed (d m : gmap string json) errs :
  d !! "attestation" = Some (JObj m) ->
  validate_attestation (JObj d) = Ok errs ->
  (errors_about "balance_raw" errs = []
   <-> int_field int_value (m !! "balance_raw") (fun z => 0 <=? z) = true)
  /\ (errors_about "currency_code_int" errs = []
      <-> int_field int_value (m !! "currency_code_int")
            (fun z => (0 <=? z) && (z <=? 2 ^ 32 - 1)) = true)
  /\ (errors_about "custodian_id" errs = []
      <-> int_field int_value (m !! "custodian_id")
            (fun z => (0 <=? z) && (z <=? 2 ^ 32 - 1)) = true)
  /\ (errors_about "attestation_id" errs = []
      <-> int_field int_value (m !! "attestation_id") (fun _ => true) = true)
  /\ (errors_about "issued_at" errs = []
      <-> int_field int_value (m !! "issued_at") (fun _ => true) = true)
  /\ (errors_about "valid_until" errs = []
      <-> int_field int_value (m !! "valid_until") (fun _ => true) = true)
  /\ (errors_about "account_id_hash" errs = []
      <-> account_field (hex_account strip_hex_prefix) (m !! "account_id_hash") = true)
  /\ (errors_about "custodian_pubkey" errs = []
      <-> pair_field (fun _ => true) (m !! "custodian_pubkey") "x" "y" = true)
  /\ (errors_about "signature" errs = []
      <-> pair_field (fun _ => true) (m !! "signature") "r" "s" = true)
  /\ (errors_about "message_hash" errs = []
      <-> byte_array int_value (m !! "message_hash") = true).
Proof.
  intros Hatt Hv. rewrite (validate_object d m Hatt) in Hv.
  repeat split.
  - project_field "balance_raw" m errs Hv.
    rewrite app_nil, (required_about_nil _ (TInt, "u64")) by done.
    by intros ?%int_field_balance.
  - project_field "balance_raw" m errs Hv.
    rewrite app_nil, (required_about_nil _ (TInt, "u64")) by done.
    by intros ?%int_field_balance.
  - project_field "currency_code_int" m errs Hv.
    rewrite app_nil, (required_about_nil _ (TInt, "u32")) by done.
    by intros ?%(int_field_u32 CurrencyNotU32).
  - project_field "currency_code_int" m errs Hv.
    rewrite app_nil, (required_about_nil _ (TInt, "u32")) by done.
    by intros ?%(int_field_u32 CurrencyNotU32).
  - project_field "custodian_id" m errs Hv.
    rewrite app_nil, (required_about_nil _ (TInt, "u32")) by done.
    by intros ?%(int_field_u32 CustodianNotU32).
  - project_field "custodian_id" m errs Hv.
    rewrite app_nil, (required_about_nil _ (TInt, "u32")) by done.
    by intros ?%(int_field_u32 CustodianNotU32).
  - project_field "attestation_id" m errs Hv.
    rewrite (required_about_nil _ (TInt, "u64")) by done. by intros ?%int_field_any.
  - project_field "attestation_id" m errs Hv.
    rewrite (required_about_nil _ (TInt, "u64")) by done. by intros ?%int_field_any.
  - project_field "issued_at" m errs Hv.
    rewrite (required_about_nil _ (TInt, "u64")) by done. by intros ?%int_field_any.
  - project_field "issued_at" m errs Hv.
    rewrite (required_about_nil _ (TInt, "u64")) by done. by intros ?%int_field_any.
  - project_field "valid_until" m errs Hv.
    rewrite (required_about_nil _ (TInt, "u64")) by done. by intros ?%int_field_any.
  - project_field "valid_until" m errs Hv.
    rewrite (required_about_nil _ (TInt, "u64")) by done. by intros ?%int_field_any.
  - project_field "account_id_hash" m errs Hv.
    rewrite app_nil, (required_about_nil _ (TStr, "32-byte hex or array")) by done.
    by intros ?%account_field_code.
  - project_field "account_id_hash" m errs Hv.
    rewrite app_nil, (required_about_nil _ (TStr, "32-byte hex or array")) by done.
    by intros ?%account_field_code.
  - project_field "custodian_pubkey" m errs Hv.
    rewrite app_nil, (required_about_nil _ (TDict, "object with x, y")) by done.
    intros [Ht ->]. apply (pair_field_code "custodian_pubkey"). by rewrite Hpk.
  - project_field "custodian_pubkey" m errs Hv.
    rewrite app_nil, (required_about_nil _ (TDict, "object with x, y")) by done.
    intros [Ht Hp]%(pair_field_code "custodian_pubkey"). split; [done|]. congruence.
  - project_field "signature" m errs Hv.
    rewrite app_nil, (required_about_nil _ (TDict, "object with r, s")) by done.
    intros [Ht ->]. apply (pair_field_code "signature"). by rewrite Hsg.
  - project_field "signature" m errs Hv.
    rewrite app_nil, (required_about_nil _ (TDict, "object with r, s")) by done.
    intros [Ht Hp]%(pair_field_code "signature"). split; [done|]. congruence.
  - project_field "message_hash" m errs Hv.
    rewrite app_nil, (required_about_nil _ (TList, "32-byte array")) by done.
    by intros ?%byte_array_code.
  - project_field "message_hash" m errs Hv.
    rewrite app_nil, (required_about_nil _ (TList, "32-byte array")) by done.
    by intros ?%byte_array_code.
Qed.

Lemma field_clean_iff_well_formed_witness :
  (errors_about "balance_raw" [BalanceNegative] = []
   <-> int_field int_value (negative_balance !! "balance_raw") (fun z => 0 <=? z) = true)
  /\ (errors_about "currency_code_int" [BalanceNegative] = []
      <-> int_field int_value (negative_balance !! "currency_code_int")
            (fun z => (0 <=? z) && (z <=? 2 ^ 32 - 1)) = true)
  /\ (errors_about "custodian_id" [BalanceNegative] = []
      <-> int_field int_value (negative_balance !! "custodian_id")
            (fun z => (0 <=? z) && (z <=? 2 ^ 32 - 1)) = true)
  /\ (errors_about "attestation_id" [BalanceNegative] = []
      <-> int_field int_value (negative_balance !! "attestation_id") (fun _ => true) = true)
  /\ (errors_about "issued_at" [BalanceNegative] = []
      <-> int_field int_value (negative_balance !! "issued_at") (fun _ => true) = true)
  /\ (errors_about "valid_until" [BalanceNegative] = []
      <-> int_field int_value (negative_balance !! "valid_until") (fun _ => true) = true)
  /\ (errors_about "account_id_hash" [BalanceNegative] = []
      <-> account_field (hex_account strip_hex_prefix)
            (negative_balance !! "account_id_hash") = true)
  /\ (errors_about "custodian_pubkey" [BalanceNegative] = []
      <-> pair_field (fun _ => true) (negative_balance !! "custodian_pubkey") "x" "y" = true)
  /\ (errors_about "signature" [BalanceNegative] = []
      <-> pair_field (fun _ => true) (negative_balance !! "signature") "r" "s" = true)
  /\ (errors_about "message_hash" [BalanceNegative] = []
      <-> byte_array int_value (negative_balance !! "message_hash") = true).
Proof.
  apply (field_clean_iff_well_formed
           {[ "attestation" := JObj negative_balance ]} negative_balance
           [BalanceNegative]);
    vm_compute; reflexivity.
Defined.

(** ** A [message_hash] of the wrong shape *)

(** The elements of [message_hash] are looked at only when it is a list of
    exactly 32: a list of any other length gets the length error alone,
    whatever it contains, and a value that is no list gets the type error
    followed by the "non-array" error. *)
Theorem message_hash_wrong_shape_not_scanned (d m : gmap string json) v errs :
  d !! "attestation" = Some (JObj m) ->
  m !! "message_hash" = Some v ->
  (forall l, v = JList l -> length l <> 32%nat) ->
  validate_attestation (JObj d) = Ok errs ->
  errors_about "message_hash" errs
  = match v with
    | JList l => [MessageHashNot32 (Some (length l))]
    | _ => [WrongType "message_hash" "list" (type_name v); MessageHashNot32 None]
    end.
Proof.
  intros Hatt Hmh Hshape Hv. rewrite (validate_object d m Hatt) in Hv.
  project_field "message_hash" m errs Hv.
  unfold required_about.
  change (entry_of "message_hash" required_fields) with (Some (TList, "32-byte array")).
  rewrite Hmh. cbn [field_errors message_hash_errors pytype_name].
  destruct v; try done. cbn [isinstance app].
  specialize (Hshape l eq_refl). apply Nat.eqb_neq in Hshape. by rewrite Hshape.
Qed.

Lemma message_hash_wrong_shape_not_scanned_witness :
  errors_about "message_hash" [MessageHashNot32 (Some 3%nat)]
  = [MessageHashNot32 (Some (length [JInt 999; JNull; JStr "x"]))].
Proof.
  apply (message_hash_wrong_shape_not_scanned
           {[ "attestation" :=
                JObj (<["message_hash" := JList [JInt 999; JNull; JStr "x"]]> valid_att) ]}
           (<["message_hash" := JList [JInt 999; JNull; JStr "x"]]> valid_att)
           (JList [JInt 999; JNull; JStr "x"]));
    [vm_compute; reflexivity | vm_compute; reflexivity
    | intros l [= <-]; vm_compute; lia | vm_compute; reflexivity].
Defined.

(** ** C2: the documents on which the validator returns *)

Lemma each_text_mono {A} (text_of text_of' : A -> result unit) l :
  (forall a, text_of a = Ok tt -> text_of' a = Ok tt) ->
  each_text text_of l = Ok tt -> each_text text_of' l = Ok tt.
Proof.
  intros Hone. induction l as [|a rest IH]; [done|]. cbn [each_text].
  destruct (text_of a) as [[]|x] eqn:Ha; [|done]. cbn [bind]. intros Hrest.
  by rewrite (Hone a Ha), (IH Hrest).
Qed.

(** A text that can be built with some levels left can be built with more. *)
Lemma py_repr_mono remaining remaining' v :
  (remaining <= remaining')%nat ->
  py_repr remaining v = Ok tt -> py_repr remaining' v = Ok tt.
Proof.
  revert remaining' v. induction remaining as [|remaining IH]; intros remaining' v Hle.
  - done.
  - destruct remaining' as [|remaining']; [lia|]. rewrite !py_repr_S.
    destruct v; try done.
    + apply each_text_mono. intros a. apply IH. lia.
    + apply each_text_mono. intros a. apply IH. lia.
Qed.

Lemma formats_safely_ok v : formats_safely v = true -> format_value v = Ok tt.
Proof.
  unfold formats_safely, format_value.
  destruct (py_repr 100 v) as [[]|x] eqn:H; [|done]. intros _.
  apply (py_repr_mono 100); [|done]. unfold recursion_limit. lia.
Qed.

Lemma reported_formats_safely_ok l :
  reported_formats_safely l = true -> scan_formats l = Ok tt.
Proof.
  induction l as [|byte rest IH]; [done|]. cbn [reported_formats_safely scan_formats].
  destruct (not_a_byte byte); [apply formats_safely_ok | apply IH].
Qed.

Lemma message_text_safe_ok v :
  message_text_safe v = true -> message_hash_formats v = Ok tt.
Proof.
  unfold message_text_safe, message_hash_formats. destruct v as [[]|]; try done.
  destruct (length l =? 32)%nat; [apply reported_formats_safely_ok | done].
Qed.

(** C2, as the source has it.  The validator returns a list of errors and
    raises nothing on every document of [returns_normally]: a dict without
    [attestation]; a list or string in which ["attestation"] does not occur;
    a dict whose attestation is a list or string naming none of the ten
    fields; a dict whose attestation is a dict, provided the members [x],
    [y], [r], [s] that are present have a length (a list, a string or a
    dict) and the element of [message_hash] that the scan reports, if any,
    is one [str] can format.  On such a document every malformation is
    an entry of the list. *)
Theorem C2_returns_without_raising doc :
  returns_normally doc = true -> exists errs, validate_attestation doc = Ok errs.
Proof.
  destruct doc as [| | | | s | l | d]; try done.
  - intros H. rewrite (validate_lacking (JStr s) H). eauto.
  - intros H. rewrite (validate_lacking (JList l) H). eauto.
  - cbn [returns_normally].
    destruct (d !! "attestation") as [att|] eqn:Hatt.
    + destruct att as [| | | | | |m];
        try (intros H; rewrite (validate_not_a_dict d _ Hatt) by done;
             rewrite H; eauto).
      intros [[Hpk%negb_true_iff Hsg%negb_true_iff]%andb_true_iff Hmh]%andb_true_iff.
      rewrite (validate_object d m Hatt). unfold object_errors.
      destruct (pair_errors_returns "custodian_pubkey" "x" "y" _ Hpk) as [pk ->].
      destruct (pair_errors_returns "signature" "r" "s" _ Hsg) as [sg ->].
      rewrite (message_text_safe_ok _ Hmh). cbn [bind]. eauto.
    + intros _. rewrite (validate_lacking (JObj d)) by (simpl; by rewrite Hatt). eauto.
Qed.

Lemma C2_witness :
  returns_normally (document (JObj odd_att)) = true
  /\ exists errs, validate_attestation (document (JObj odd_att)) = Ok errs.
Proof.
  split; [vm_compute; reflexivity|].
  apply (C2_returns_without_raising (document (JObj odd_att))).
  vm_compute; reflexivity.
Defined.

(** What the validator reports on [odd_att]. *)
Example odd_reported :
  validate_attestation (document (JObj odd_att))
  = Ok [ WrongType "balance_raw" "int" "str";
         MissingRequired "currency_code_int" "u32";
         MissingRequired "custodian_id" "u32";
         MissingRequired "attestation_id" "u64";
         MissingRequired "issued_at" "u64";
         MissingRequired "valid_until" "u64";
         MissingRequired "account_id_hash" "32-byte hex or array";
         WrongType "signature" "dict" "list";
         MemberNot32 "custodian_pubkey" "x" 3;
         MemberNot32 "custodian_pubkey" "y" 0;
         MessageHashByte 3 (JList [JInt (-1); JStr "a"]) ].
Proof. vm_compute. reflexivity. Qed.

(** An [int] of 5001 digits among the bytes has no text: the message of
    line 87 cannot be built and [str] raises. *)
Example unformattable_byte_raises :
  validate_attestation
    (with_field "message_hash" (JList (JInt (10 ^ 5000) :: replicate 31 (JInt 0))))
  = Raise ValueError.
Proof. vm_compute. reflexivity. Qed.
